(** * be369group: one user-code slot kept consistent over several BE369 locks

    A shallow embedding of [custom_components/be369group.py].  The class
    [BE369LockGroup] keeps three tables ([values], [alarms], [names]), writes
    the name table to a YAML file and reacts to two Z-Wave notifications.  The
    handlers are embedded as computations in a state-and-exception monad over
    a [World] that holds the three tables, the Z-Wave value objects (which the
    handlers mutate and which [values] only references), the persistence
    file, the raw node statistics and the trace of everything the handlers
    send outwards (logger, logbook, persistent notifications, file
    operations). *)

From Stdlib Require Import Ascii.
From stdpp Require Import gmap strings list fin_maps functions pretty.

Open Scope Z_scope.

(** ** Constants of the module *)

Definition PERSIST_FILE : string := "lockinfo.yaml".

Definition USER_CODE_ENTERED : Z := 16.
Definition TOO_MANY_FAILED_ATTEMPTS : Z := 96.
(* Enrollment code, refresh and code count *)
Definition NOT_USER_CODE_INDEXES : list Z := [0; 254; 255].
Definition USER_CODE_STATUS_BYTE : Z := 8.

(** The Z-Wave identifiers the module takes from
    [homeassistant.components.zwave.const]. *)
Module zconst.
Definition GENERIC_TYPE_ENTRY_CONTROL : Z := 64.
Definition COMMAND_CLASS_USER_CODE : Z := 99.
Definition COMMAND_CLASS_ALARM : Z := 113.
End zconst.

(** ** Python data *)

(** What the [data] attribute of a Z-Wave value holds: a byte for an alarm
    sub-field, a string for a user code.  Neither is Python's [None]; a slot of
    an alarm buffer is an [option pydata]. *)
Inductive pydata :=
  | DInt (z : Z)
  | DStr (s : string).

#[global] Instance pydata_eq_dec : EqDecision pydata.
Proof. solve_decision. Defined.

(** [str.format] on one argument. *)
Definition format_bool (b : bool) : string := if b then "True" else "False".

Definition format_data (d : pydata) : string :=
  match d with
  | DInt z => pretty z
  | DStr s => s
  end.

(** [n in range(lo, hi)]: the upper bound is excluded. *)
Definition in_range (lo hi n : Z) : bool := bool_decide (lo ≤ n < hi).

(** [ord(x)] for a character of the payload; payloads are byte strings here,
    so every code point is below 256. *)
Definition ord (x : ascii) : Z := Z.of_N (N_of_ascii x).

Fixpoint chars (s : string) : list ascii :=
  match s with
  | EmptyString => []
  | String c s' => c :: chars s'
  end.

(** Position of a Python index in a list of length [len]: negative indexes
    count from the end, anything else is out of range. *)
Definition py_index (len : nat) (i : Z) : option nat :=
  if decide (0 ≤ i < Z.of_nat len) then Some (Z.to_nat i)
  else if decide (- Z.of_nat len ≤ i < 0) then Some (Z.to_nat (Z.of_nat len + i))
  else None.

(** [repr] of the set of availabilities.  CPython iterates a small set by
    hash, so [False] comes before [True]; the program only ever prints a set
    without [None]. *)
Definition repr_avail (a : option bool) : string :=
  match a with
  | None => "None"
  | Some b => format_bool b
  end.

Fixpoint join_comma (l : list string) : string :=
  match l with
  | [] => EmptyString
  | [s] => s
  | s :: l' => s +:+ ", " +:+ join_comma l'
  end.

Definition repr_set (s : gset (option bool)) : string :=
  let present := filter (λ a, a ∈ s) [Some false; Some true; None] in
  match present with
  | [] => "set()"
  | _ => "{" +:+ join_comma (repr_avail <$> present) +:+ "}"
  end.

(** ** Z-Wave objects *)

(** A value object of python-openzwave, with the attributes the module reads
    and the one it adds ([available]: [None] unknown, [Some true] available,
    [Some false] occupied). *)
Record ZWaveValue := mkValue {
  home_id : Z;
  parent_id : Z;
  index : Z;
  command_class : Z;
  label : string;
  data : pydata;
  available : option bool
}.

Record ZWaveNode := mkNode { generic : Z }.

Definition with_available (a : option bool) (v : ZWaveValue) : ZWaveValue :=
  {| home_id := home_id v; parent_id := parent_id v; index := index v;
     command_class := command_class v; label := label v; data := data v;
     available := a |}.

Definition with_data (d : pydata) (v : ZWaveValue) : ZWaveValue :=
  {| home_id := home_id v; parent_id := parent_id v; index := index v;
     command_class := command_class v; label := label v; data := d;
     available := available v |}.

(** ** Outward effects *)

Inductive level := DEBUG | WARNING | ERROR.

(** A piece written to the persistence file: literal text, or the YAML
    [dump] of a name table. *)
Inductive chunk :=
  | Text (s : string)
  | Dump (m : gmap Z string).

Inductive effect :=
  | Log (lv : level) (msg : string)                 (* _LOGGER.debug / warning / error *)
  | LogbookEntry (name message : string)            (* logbook.log_entry *)
  | Notification (message title : string)           (* persistent_notification.create *)
  | FileOpenW (path : string)                       (* open(path, 'w') *)
  | FileWrite (c : chunk)                           (* out.write *)
  | FileClose                                       (* leaving the with block *)
  | Activity (nodeid : Z) (atype aval : option pydata).  (* entry of lockactivity *)

#[global] Instance level_eq_dec : EqDecision level.
Proof. solve_decision. Defined.
#[global] Instance chunk_eq_dec : EqDecision chunk.
Proof. solve_decision. Defined.
#[global] Instance effect_eq_dec : EqDecision effect.
Proof. solve_decision. Defined.

(** ** The world *)

(** [heap] gives every object identity its current value object: the lists
    in [values] hold identities, so a handler that sets [value.available] on
    the object it was handed changes what the registry sees.  Every identity
    denotes an object, as every Python reference does. *)
Record World := mkWorld {
  heap : positive → ZWaveValue;
  values : gmap Z (list positive);          (* index  -> [user code Value for each lock at index] *)
  alarms : gmap Z (list (option pydata));   (* nodeid -> [alarmtype, alarmval] *)
  names : gmap Z string;                    (* index  -> string to describe this entry *)
  file : option (list chunk);               (* PERSIST_FILE; None: no such file *)
  network : Z → Z → list Z;                 (* getNodeStatistics(home, node)['lastReceivedMessage'] *)
  trace : list effect
}.

Definition set_heap (h : positive → ZWaveValue) (w : World) : World :=
  mkWorld h (values w) (alarms w) (names w) (file w) (network w) (trace w).
Definition set_values (vs : gmap Z (list positive)) (w : World) : World :=
  mkWorld (heap w) vs (alarms w) (names w) (file w) (network w) (trace w).
Definition set_alarms (al : gmap Z (list (option pydata))) (w : World) : World :=
  mkWorld (heap w) (values w) al (names w) (file w) (network w) (trace w).
Definition set_names (ns : gmap Z string) (w : World) : World :=
  mkWorld (heap w) (values w) (alarms w) ns (file w) (network w) (trace w).
Definition set_file (f : option (list chunk)) (w : World) : World :=
  mkWorld (heap w) (values w) (alarms w) (names w) f (network w) (trace w).
Definition set_trace (t : list effect) (w : World) : World :=
  mkWorld (heap w) (values w) (alarms w) (names w) (file w) (network w) t.

(** ** The monad of the handlers *)

Inductive exn :=
  | IndexError (msg : string)
  | KeyError (key : Z).

Definition exn_str (e : exn) : string :=
  match e with
  | IndexError msg => msg
  | KeyError k => pretty k
  end.

Inductive result (A : Type) :=
  | Ok (a : A)
  | Raise (e : exn).
Arguments Ok {A} a.
Arguments Raise {A} e.

Definition M (A : Type) : Type := World → result A * World.

#[global] Instance M_ret : MRet M := λ A a w, (Ok a, w).
#[global] Instance M_bind : MBind M := λ A B f m w,
  match m w with
  | (Ok a, w') => f a w'
  | (Raise e, w') => (Raise e, w')
  end.

Definition raise {A} (e : exn) : M A := λ w, (Raise e, w).

(** [try: body except Exception as e: handler(e)]; what [body] changed before
    it raised stays changed. *)
Definition try_except {A} (body : M A) (handler : exn → M A) : M A := λ w,
  match body w with
  | (Ok a, w') => (Ok a, w')
  | (Raise e, w') => handler e w'
  end.

Definition gets {A} (f : World → A) : M A := λ w, (Ok (f w), w).
Definition modify (f : World → World) : M unit := λ w, (Ok (), f w).

Definition emit (e : effect) : M unit := modify (λ w, set_trace (trace w ++ [e]) w).
Definition log (lv : level) (msg : string) : M unit := emit (Log lv msg).

Fixpoint for_each {A} (l : list A) (body : A → M unit) : M unit :=
  match l with
  | [] => mret ()
  | x :: l' => body x ;; for_each l' body
  end.

Fixpoint sequence_ (steps : list (M unit)) : M unit :=
  match steps with
  | [] => mret ()
  | s :: steps' => s ;; sequence_ steps'
  end.

(** The state reached by a computation, whatever its result. *)
Definition exec {A} (m : M A) (w : World) : World := (m w).2.

(** ** Python containers *)

(** [l[i]]. *)
Definition getitem {A} (l : list A) (i : Z) : M A :=
  match py_index (length l) i ≫= (l !!.) with
  | Some x => mret x
  | None => raise (IndexError "list index out of range")
  end.

(** [l[i] = x], on the list that is returned. *)
Definition setitem {A} (l : list A) (i : Z) (x : A) : M (list A) :=
  match py_index (length l) i with
  | Some n => mret (<[n := x]> l)
  | None => raise (IndexError "list assignment index out of range")
  end.

(** [self.values[i]]: a [defaultdict(list)], so that reading a missing key
    stores an empty list under it. *)
Definition values_getitem (i : Z) : M (list positive) := λ w,
  match values w !! i with
  | Some vs => (Ok vs, w)
  | None => (Ok [], set_values (<[i := []]> (values w)) w)
  end.

(** [self.alarms[nodeid]]. *)
Definition alarms_getitem (nodeid : Z) : M (list (option pydata)) := λ w,
  match alarms w !! nodeid with
  | Some bits => (Ok bits, w)
  | None => (Raise (KeyError nodeid), w)
  end.

Definition alarms_setitem (nodeid : Z) (bits : list (option pydata)) : M unit :=
  modify (λ w, set_alarms (<[nodeid := bits]> (alarms w)) w).

(** Attribute access on the value object with identity [v]. *)
Definition getattr {A} (v : positive) (field : ZWaveValue → A) : M A :=
  gets (λ w, field (heap w v)).

Definition setattr (v : positive) (upd : ZWaveValue → ZWaveValue) : M unit :=
  modify (λ w, set_heap (alter upd v (heap w)) w).

(** Truth value of an entry of [thelist]. *)
Definition truthy (a : option bool) : bool :=
  match a with
  | Some b => b
  | None => false
  end.

(** ** The file behind the name table *)

Definition fs_open_w (path : string) : M unit :=
  emit (FileOpenW path) ;; modify (set_file (Some [])).

Definition fs_write (c : chunk) : M unit :=
  emit (FileWrite c) ;; modify (λ w, set_file (Some (default [] (file w) ++ [c])) w).

Definition fs_close : M unit := emit FileClose.

Definition NEWLINE : string := String (ascii_of_nat 10) EmptyString.

Definition HEADER : string :=
  "# Autogenerated file to survive data across restarts, I wouldn't recommend editing"
  +:+ NEWLINE.

(** ** class BE369LockGroup *)

(** Rewrite the lock code name information: the statements of
    [store_name_info], one per step. *)
Definition store_name_info_steps : list (M unit) :=
  [ fs_open_w PERSIST_FILE;
    fs_write (Text HEADER);
    (ns ← gets names; fs_write (Dump ns));
    fs_close ].

Definition store_name_info : M unit := sequence_ store_name_info_steps.

(** Set the ascii number string code to index X on each available lock *)
Definition setcode (index : Z) (name value : string) : M unit :=
  if negb (forallb (λ x, in_range 0x30 0x39 (ord x)) (chars value)) then
    log WARNING ("Invalid code provided to setcode (" +:+ value +:+ ")")
  else
    vs ← values_getitem index;
    for_each vs (λ v, setattr v (with_data (DStr value))).

(** Four NUL characters. *)
Definition CLEAR_CODE : string :=
  String zero (String zero (String zero (String zero EmptyString))).

(** Clear the code at index X on each available lock *)
Definition clearcode (index : Z) : M unit :=
  vs ← values_getitem index;
  for_each vs (λ v, setattr v (with_data (DStr CLEAR_CODE))).

Definition lockcodestatus (value : positive) : M unit :=
  i ← getattr value index;
  vs ← values_getitem i;
  thelist ← gets (λ w, (λ v, available (heap w v)) <$> vs);
  let theset : gset (option bool) := list_to_set thelist in
  if decide (None ∈ theset) then
    (* Not all codes at this index refreshed for all locks *)
    mret ()
  else if decide (size theset ≠ 1%nat) then
    (* differing ideas on availability, uh oh *)
    log WARNING ("Locks disagree on availability of index " +:+ pretty i
                 +:+ ". set = " +:+ repr_set theset)
  else
    first ← getitem thelist 0;
    if truthy first then
      (* Available *)
      ns ← gets names;
      if decide (is_Some (ns !! i)) then
        (* we have a name for something that should be available, clear the name *)
        modify (λ w, set_names (delete i (names w)) w) ;;
        store_name_info
      else mret ()
    else
      (* Occupied *)
      ns ← gets names;
      if decide (ns !! i = None) then
        (* we should have a name but we don't, add temp name *)
        modify (λ w, set_names (<[i := "Unamed Entry " +:+ pretty i]> (names w)) w) ;;
        store_name_info
      else mret ().

Definition format_opt (a : option pydata) : string :=
  match a with
  | Some d => format_data d
  | None => "None"
  end.

(** We have decoded a report (via alarms) from the BE369 lock.  The first
    effect is no output of the program: it records that the dispatcher was
    entered and with which arguments. *)
Definition lockactivity (nodeid : Z) (atype aval : option pydata) : M unit :=
  emit (Activity nodeid atype aval) ;;
  if bool_decide (atype = Some (DInt USER_CODE_ENTERED)) then
    emit (LogbookEntry "LockNameHere"
            ("User entered door code (node=" +:+ pretty nodeid
             +:+ ", slot=" +:+ format_opt aval +:+ ")"))
  else if bool_decide (atype = Some (DInt TOO_MANY_FAILED_ATTEMPTS)) then
    let msg := "Multiple invalid door codes enetered at node " +:+ pretty nodeid in
    emit (Notification msg "Potential Prowler") ;;
    log WARNING msg
  else
    log WARNING ("Unknown lock alarm type! Investigate (" +:+ pretty nodeid +:+ ", "
                 +:+ format_opt atype +:+ ", " +:+ format_opt aval +:+ ")").

(** New ZWave Value added (generally on network start), make note of any user
    code entries on generic locks *)
Definition valueadded (node : ZWaveNode) (value : positive) : M unit :=
  v ← getattr value id;
  if decide (generic node = zconst.GENERIC_TYPE_ENTRY_CONTROL
             ∧ command_class v = zconst.COMMAND_CLASS_USER_CODE
             ∧ index v ∉ NOT_USER_CODE_INDEXES) then
    log DEBUG ("registered user code location " +:+ pretty (index v) +:+ ", "
               +:+ label v +:+ " on " +:+ pretty (parent_id v)) ;;
    setattr value (with_available None) ;;   (* unknown third state *)
    vs ← values_getitem (index v);
    modify (λ w, set_values (<[index v := vs ++ [value]]> (values w)) w) ;;
    alarms_setitem (parent_id v) [None; None]
  else mret ().

(** We look for usercode and alarm messages from our locks here *)
Definition valuechanged (value : positive) : M unit :=
  v ← getattr value id;
  if decide (command_class v = zconst.COMMAND_CLASS_USER_CODE) then
    msg ← gets (λ w, network w (home_id v) (parent_id v));
    byte ← getitem msg USER_CODE_STATUS_BYTE;
    let avail := bool_decide (byte = 0) in
    setattr value (with_available (Some avail)) ;;
    log DEBUG (pretty (parent_id v) +:+ " code " +:+ pretty (index v)
               +:+ " available " +:+ format_bool avail) ;;
    lockcodestatus value
  else
  tracked ← gets (λ w, bool_decide (is_Some (alarms w !! parent_id v)));
  if bool_decide (command_class v = zconst.COMMAND_CLASS_ALARM) && tracked then
    log DEBUG ("alarm piece " +:+ pretty (index v) +:+ " " +:+ format_data (data v)
               +:+ " on " +:+ pretty (parent_id v)) ;;
    try_except
      (bits ← alarms_getitem (parent_id v);
       bits ← setitem bits (index v) (Some (data v));
       alarms_setitem (parent_id v) bits ;;
       if decide (None ∉ bits) then
         atype ← getitem bits 0;
         aval ← getitem bits 1;
         lockactivity (parent_id v) atype aval ;;
         alarms_setitem (parent_id v) [None; None]
       else mret ())
      (λ e, log ERROR ("exception " +:+ exn_str e +:+ ": got bad data? index="
                       +:+ pretty (index v) +:+ ", data=" +:+ format_data (data v)))
  else mret ().

(** * Vocabulary of the statements *)

(** ** The registry and the log lines *)

(** The observations registered for a slot, and their availabilities. *)
Definition registered (w : World) (i : Z) : list positive :=
  default [] (values w !! i).

Definition observed (w : World) (i : Z) : list (option bool) :=
  (λ v, available (heap w v)) <$> registered w i.

(** Availability as the tri-state of the value objects. *)
Abbreviation UNKNOWN := (@None bool) (only parsing).
Abbreviation AVAILABLE := (Some true) (only parsing).
Abbreviation OCCUPIED := (Some false) (only parsing).

(** The world after [self.values[i]] has been read. *)
Definition touched (i : Z) (w : World) : World := (values_getitem i w).2.

Definition STORE_EFFECTS (ns : gmap Z string) : list effect :=
  [FileOpenW PERSIST_FILE; FileWrite (Text HEADER); FileWrite (Dump ns); FileClose].

(** The world after [store_name_info]. *)
Definition stored (w : World) : World :=
  set_file (Some [Text HEADER; Dump (names w)])
    (set_trace (trace w ++ STORE_EFFECTS (names w)) w).

Definition DISAGREE (i : Z) (set : string) : effect :=
  Log WARNING ("Locks disagree on availability of index " +:+ pretty i
               +:+ ". set = " +:+ set).

Definition PLACEHOLDER (i : Z) : string := "Unamed Entry " +:+ pretty i.

Definition ENTERED (nodeid : Z) (aval : option pydata) : string :=
  "User entered door code (node=" +:+ pretty nodeid +:+ ", slot=" +:+ format_opt aval +:+ ")".

Definition PROWLER (nodeid : Z) : string :=
  "Multiple invalid door codes enetered at node " +:+ pretty nodeid.

Definition UNKNOWN_TYPE (nodeid : Z) (atype aval : option pydata) : string :=
  "Unknown lock alarm type! Investigate (" +:+ pretty nodeid +:+ ", "
  +:+ format_opt atype +:+ ", " +:+ format_opt aval +:+ ")".

(** What [lockactivity] sends outwards, after the record of its entry. *)
Definition dispatched (nodeid : Z) (atype aval : option pydata) : list effect :=
  if bool_decide (atype = Some (DInt USER_CODE_ENTERED)) then
    [LogbookEntry "LockNameHere" (ENTERED nodeid aval)]
  else if bool_decide (atype = Some (DInt TOO_MANY_FAILED_ATTEMPTS)) then
    [Notification (PROWLER nodeid) "Potential Prowler"; Log WARNING (PROWLER nodeid)]
  else [Log WARNING (UNKNOWN_TYPE nodeid atype aval)].

Definition REFRESH (v : ZWaveValue) (avail : bool) : effect :=
  Log DEBUG (pretty (parent_id v) +:+ " code " +:+ pretty (index v)
             +:+ " available " +:+ format_bool avail).

(** The world once a user-code value has had its availability refreshed from
    the status byte, before the reconciler runs. *)
Definition refreshed (value : positive) (byte : Z) (w : World) : World :=
  set_trace (trace w ++ [REFRESH (heap w value) (bool_decide (byte = 0))])
    (set_heap (alter (with_available (Some (bool_decide (byte = 0)))) value (heap w)) w).

(** The status byte of the last message received from the node of [value]. *)
Definition status_byte (value : positive) (w : World) : option Z :=
  let v := heap w value in
  network w (home_id v) (parent_id v) !! Z.to_nat USER_CODE_STATUS_BYTE.

Definition PIECE (v : ZWaveValue) : effect :=
  Log DEBUG ("alarm piece " +:+ pretty (index v) +:+ " " +:+ format_data (data v)
             +:+ " on " +:+ pretty (parent_id v)).

Definition BAD_DATA (e : exn) (v : ZWaveValue) : effect :=
  Log ERROR ("exception " +:+ exn_str e +:+ ": got bad data? index="
             +:+ pretty (index v) +:+ ", data=" +:+ format_data (data v)).

(** The combined events a trace records, in order. *)
Definition activities (t : list effect) : list (Z * option pydata * option pydata) :=
  omap (λ e, match e with Activity n a b => Some (n, a, b) | _ => None end) t.

(** ** Sequences of notifications and commands *)

(** What [setup] connects: the two Z-Wave signals and the two services. *)
Inductive notification :=
  | ValueAdded (node : ZWaveNode) (value : positive)
  | ValueChanged (value : positive)
  | SetUserCode (index : Z) (name value : string)
  | ClearUserCode (index : Z).

Definition handle (n : notification) : M unit :=
  match n with
  | ValueAdded node value => valueadded node value
  | ValueChanged value => valuechanged value
  | SetUserCode index name value => setcode index name value
  | ClearUserCode index => clearcode index
  end.

(** The host delivers one notification after the other; an exception that
    leaves a handler does not undo what the handler did. *)
Definition run (l : list notification) (w : World) : World :=
  foldl (λ w n, (handle n w).2) w l.

(** From [w] to [w'] the dispatcher was not entered for device [d]. *)
Definition quiet (d : Z) (w w' : World) : Prop :=
  ∃ t, trace w' = trace w ++ t ∧ ∀ a b, (d, a, b) ∉ activities t.

(** The attributes that say which report a value object carries never change. *)
Definition same_identity (w w' : World) : Prop :=
  ∀ v, index (heap w' v) = index (heap w v)
       ∧ command_class (heap w' v) = command_class (heap w v)
       ∧ parent_id (heap w' v) = parent_id (heap w v).

(** The buffer of [d], if there is one, has two slots and the one that is not
    at index [i] is absent. *)
Definition half_open (d i : Z) (w : World) : Prop :=
  ∀ bits, alarms w !! d = Some bits →
          length bits = 2%nat ∧ bits !! Z.to_nat (1 - i) = Some None.

Definition REGISTERED (v : ZWaveValue) : effect :=
  Log DEBUG ("registered user code location " +:+ pretty (index v) +:+ ", "
             +:+ label v +:+ " on " +:+ pretty (parent_id v)).

Definition is_open (e : effect) : bool :=
  match e with FileOpenW _ => true | _ => false end.

(** How many times a trace rewrites the persistence file. *)
Definition saves (t : list effect) : nat := length (filter (λ e, is_open e) t).

(** ** A house with two locks *)

Definition user_code_value (node slot : Z) : ZWaveValue :=
  mkValue 1 node slot zconst.COMMAND_CLASS_USER_CODE "Code" (DStr EmptyString) None.

Definition alarm_value (node field datum : Z) : ZWaveValue :=
  mkValue 1 node field zconst.COMMAND_CLASS_ALARM "Alarm" (DInt datum) None.

(** Objects 1 and 2: slot 5 on the locks 10 and 11; objects 3 and 4: the two
    alarm sub-fields of lock 10; object 5: an alarm sub-field of node 12, which
    never registers a user code; object 7: the enrollment code (index 0) of
    lock 10; every other object: slot 7 of lock 10. *)
Definition house_heap (r : positive) : ZWaveValue :=
  match r with
  | 1%positive => user_code_value 10 5
  | 2%positive => user_code_value 11 5
  | 3%positive => alarm_value 10 0 16
  | 4%positive => alarm_value 10 1 5
  | 5%positive => alarm_value 12 0 96
  | 7%positive => user_code_value 10 0
  | _ => user_code_value 10 7
  end.

(** A last received message whose status byte is [byte]. *)
Definition status_message (byte : Z) : list Z := replicate 8 0 ++ [byte].

(** The world at start-up, before any value is discovered; [status] gives the
    status byte each node last reported. *)
Definition house (status : Z → Z) : World :=
  mkWorld house_heap ∅ ∅ ∅ None (λ _ node, status_message (status node)) [].

Definition LOCK : ZWaveNode := mkNode zconst.GENERIC_TYPE_ENTRY_CONTROL.

(** The nodes report anew: [status] gives the status byte of each. *)
Definition receive (status : Z → Z) (w : World) : World :=
  mkWorld (heap w) (values w) (alarms w) (names w) (file w)
    (λ _ node, status_message (status node)) (trace w).

(** Both locks have announced slot 5. *)
Definition two_locks (status : Z → Z) : World :=
  run [ValueAdded LOCK 1; ValueAdded LOCK 2] (house status).

(** Both locks report slot 5 occupied (status byte 1); the first report has
    been processed. *)
Definition one_reported : World :=
  run [ValueChanged 1] (two_locks (λ _, 1)).

(** Lock 10 reports occupied, lock 11 available. *)
Definition split_house : World :=
  run [ValueChanged 1] (two_locks (λ node, if decide (node = 10) then 1 else 0)).

(** Both of these reports have been processed. *)
Definition disagreeing_house : World :=
  run [ValueChanged 2] split_house.

(** Lock 10 has also announced its enrollment code, which the discovery
    filter drops. *)
Definition enrolled_house : World :=
  run [ValueAdded LOCK 7] (two_locks (λ _, 1)).

(** A world with a name on file. *)
Definition named_house : World :=
  set_file (Some [Text HEADER; Dump {[5 := "Bob"]}])
    (set_names {[5 := "Bob"; 7 := "Eve"]} (house (λ _, 0))).

(** ** Interrupted saves *)

(** [store_name_info] cut short after its first [k] steps. *)
Definition crash_after (k : nat) : M unit := sequence_ (take k store_name_info_steps).

(** A save is crash-safe when, wherever it is cut, the file holds either what
    it held before or what the complete save leaves. *)
Definition crash_safe (w : World) : Prop :=
  ∀ k, file (exec (crash_after k) w) = file w
       ∨ file (exec (crash_after k) w) = file (exec store_name_info w).

Definition INVALID (value : string) : effect :=
  Log WARNING ("Invalid code provided to setcode (" +:+ value +:+ ")").

(** ** Start-up: loading the name table *)

(** How [load_yaml] can fail: the file is not there, or it cannot be read as
    YAML. *)
Inductive load_error :=
  | FileNotFoundError
  | HomeAssistantError (msg : string).

(** [load_yaml(path)] on the persistence file.  Reading the written pieces
    back ([parse]) is the YAML library's business and stays a parameter; so
    does the text [format] gives for a dictionary ([format_names]). *)
Definition load_yaml (parse : list chunk → string + gmap Z string) (w : World)
    : load_error + gmap Z string :=
  match file w with
  | None => inl FileNotFoundError
  | Some content =>
      match parse content with
      | inl msg => inl (HomeAssistantError msg)
      | inr ns => inr ns
      end
  end.

(** Load lock code name information after restart *)
Definition load_name_info (parse : list chunk → string + gmap Z string)
    (format_names : gmap Z string → string) : M unit :=
  loaded ← gets (load_yaml parse);
  match loaded with
  | inr ns =>
      modify (set_names ns) ;;
      log DEBUG ("read in state: " +:+ format_names ns)
  | inl FileNotFoundError =>
      (* we'll create a new one eventually *)
      mret ()
  | inl (HomeAssistantError e) =>
      log WARNING ("error loading " +:+ PERSIST_FILE +:+ ": " +:+ e)
  end.

(** [BE369LockGroup(hass)]: empty tables, then the name table is loaded.  The
    value objects, the node statistics and the file are what the host has. *)
Definition init (parse : list chunk → string + gmap Z string)
    (format_names : gmap Z string → string)
    (objects : positive → ZWaveValue) (stats : Z → Z → list Z)
    (f : option (list chunk)) : World :=
  exec (load_name_info parse format_names) (mkWorld objects ∅ ∅ ∅ f stats []).

(** A reader that inverts what [store_name_info] writes. *)
Definition reads_back (parse : list chunk → string + gmap Z string) : Prop :=
  ∀ ns, parse [Text HEADER; Dump ns] = inr ns.

(** The reader used in the examples: it accepts exactly the two pieces
    [store_name_info] writes. *)
Definition parse_pieces (content : list chunk) : string + gmap Z string :=
  match content with
  | [Text _; Dump ns] => inr ns
  | _ => inl "could not parse"
  end.

(** ** Well-formed buffers and the discovery filter *)

(** Every alarm buffer has its two slots and is not complete. *)
Definition buffers_ok (w : World) : Prop :=
  ∀ d bits, alarms w !! d = Some bits → length bits = 2%nat ∧ None ∈ bits.

(** The three conditions of the discovery filter. *)
Definition qualifies (node : ZWaveNode) (v : ZWaveValue) : Prop :=
  generic node = zconst.GENERIC_TYPE_ENTRY_CONTROL
  ∧ command_class v = zconst.COMMAND_CLASS_USER_CODE
  ∧ index v ∉ NOT_USER_CODE_INDEXES.

(** The name table and the file agree: the file holds what a save of the
    current table writes. *)
Definition saved (w : World) : Prop :=
  file w = Some [Text HEADER; Dump (names w)].

(** A second house: lock 10 is tracked and both halves of an alarm of lock 11
    are on their way too (objects 8 and 9); object 10 is a sub-field with the
    index 2, object 11 one with the index -1. *)
Definition alarm_heap (r : positive) : ZWaveValue :=
  match r with
  | 8%positive => alarm_value 11 0 96
  | 9%positive => alarm_value 11 1 0
  | 10%positive => alarm_value 10 2 1
  | 11%positive => alarm_value 10 (-1) 9
  | 12%positive => alarm_value 10 0 17
  | _ => house_heap r
  end.

Definition alarm_house : World :=
  run [ValueAdded LOCK 1; ValueAdded LOCK 2]
    (mkWorld alarm_heap ∅ ∅ ∅ None (λ _ _, status_message 1) []).



(** What a restart reads from a file: the table the reader finds, or nothing. *)
Definition recovered (parse : list chunk → string + gmap Z string)
    (f : option (list chunk)) : gmap Z string :=
  match f with
  | None => ∅
  | Some content =>
      match parse content with
      | inr ns => ns
      | inl _ => ∅
      end
  end.

(** * Properties *)

(** ** Reading the registry *)

Lemma values_getitem_result i w :
  (values_getitem i w).1 = Ok (registered w i).
Proof. unfold values_getitem, registered. by destruct (values w !! i). Qed.

Lemma values_getitem_frame i w :
  let w' := touched i w in
  heap w' = heap w ∧ alarms w' = alarms w ∧ names w' = names w
  ∧ file w' = file w ∧ network w' = network w ∧ trace w' = trace w
  ∧ registered w' i = registered w i.
Proof.
  unfold touched, values_getitem, registered. destruct (values w !! i) eqn:E; simpl.
  - by rewrite E.
  - by rewrite lookup_insert_eq.
Qed.

Lemma lockcodestatus_unfold value w :
  lockcodestatus value w =
  let i := index (heap w value) in
  let w1 := touched i w in
  let thelist := observed w i in
  let theset : gset (option bool) := list_to_set thelist in
  if decide (None ∈ theset) then (Ok (), w1)
  else if decide (size theset ≠ 1%nat) then
    log WARNING ("Locks disagree on availability of index " +:+ pretty i
                 +:+ ". set = " +:+ repr_set theset) w1
  else
    match thelist with
    | [] => (Raise (IndexError "list index out of range"), w1)
    | first :: _ =>
        if truthy first then
          if decide (is_Some (names w !! i)) then
            (modify (λ w, set_names (delete i (names w)) w) ;; store_name_info) w1
          else (Ok (), w1)
        else
          if decide (names w !! i = None) then
            (modify (λ w, set_names (<[i := "Unamed Entry " +:+ pretty i]> (names w)) w) ;;
             store_name_info) w1
          else (Ok (), w1)
    end.
Proof.
  unfold lockcodestatus, getattr, gets, observed, registered.
  unfold mbind at 1, M_bind at 1. cbv beta iota.
  unfold mbind at 1, M_bind at 1.
  pose proof (values_getitem_result (index (heap w value)) w) as Hr.
  pose proof (values_getitem_frame (index (heap w value)) w) as (Hh & _ & Hn & _).
  unfold touched in *.
  destruct (values_getitem (index (heap w value)) w) as [r w1] eqn:E.
  simpl in Hr, Hh, Hn. subst r. cbv zeta. unfold registered.
  unfold mbind at 1, M_bind at 1. cbv beta iota. rewrite Hh.
  set (thelist := (λ v, available (heap w v)) <$> default [] (values w !! index (heap w value))).
  destruct (decide (None ∈ list_to_set thelist)); [done|].
  destruct (decide (size (list_to_set thelist) ≠ 1%nat)); [done|].
  destruct thelist as [|a l]; [done|].
  unfold mbind at 1, M_bind at 1. 
  unfold getitem. simpl py_index. cbv beta iota. simpl.
  destruct (truthy a); unfold mbind at 1, M_bind at 1; cbv beta iota; rewrite Hn;
    by case_decide.
Qed.

(** ** Sets of availabilities *)

Lemma unanimous_set (l : list (option bool)) (a : option bool) :
  l ≠ [] → (∀ x, x ∈ l → x = a) → (list_to_set l : gset (option bool)) = {[a]}.
Proof.
  intros Hne Hall. apply set_eq. intros x.
  rewrite elem_of_list_to_set, elem_of_singleton. split; [by apply Hall|].
  intros ->. destruct l as [|y l]; [done|].
  rewrite <- (Hall y); [|left]. left.
Qed.

Lemma disagreeing_set (l : list (option bool)) (a b : option bool) :
  None ∉ l → a ∈ l → b ∈ l → a ≠ b →
  (list_to_set l : gset (option bool)) = {[Some false; Some true]}.
Proof.
  intros Hnone Ha Hb Hab. apply set_eq. intros x.
  rewrite elem_of_list_to_set, elem_of_union, !elem_of_singleton. split.
  - intros Hx. destruct x as [[]|]; [by right|by left|done].
  - destruct a as [[]|], b as [[]|]; try done; intros [->| ->]; done.
Qed.

Lemma repr_set_disagree : repr_set {[Some false; Some true]} = "{False, True}".
Proof. reflexivity. Qed.

Lemma repr_set_empty : repr_set ∅ = "set()".
Proof. reflexivity. Qed.

(** ** The persistence file *)

Lemma store_name_info_run w :
  store_name_info w =
  (Ok (), set_file (Some [Text HEADER; Dump (names w)])
            (set_trace (trace w ++ STORE_EFFECTS (names w)) w)).
Proof.
  unfold store_name_info, store_name_info_steps, sequence_, fs_open_w, fs_write,
    fs_close, emit, modify, gets, mbind, M_bind, mret, M_ret, set_file, set_trace.
  simpl. by rewrite <- !app_assoc.
Qed.

(** ** The reconciler, case by case *)

Section reconciler.
Variable value : positive.
Variable w : World.
Let i := index (heap w value).

Lemma touched_frame :
  heap (touched i w) = heap w ∧ alarms (touched i w) = alarms w
  ∧ names (touched i w) = names w ∧ file (touched i w) = file w
  ∧ network (touched i w) = network w ∧ trace (touched i w) = trace w
  ∧ registered (touched i w) i = registered w i.
Proof. apply values_getitem_frame. Qed.

Lemma lockcodestatus_unknown :
  UNKNOWN ∈ observed w i →
  lockcodestatus value w = (Ok (), touched i w).
Proof.
  intros Hin. rewrite lockcodestatus_unfold. cbv zeta. fold i.
  rewrite decide_True; [done|]. by apply elem_of_list_to_set.
Qed.

Lemma lockcodestatus_disagree a b :
  UNKNOWN ∉ observed w i → a ∈ observed w i → b ∈ observed w i → a ≠ b →
  lockcodestatus value w =
  (Ok (), set_trace (trace w ++ [DISAGREE i "{False, True}"]) (touched i w)).
Proof.
  intros Hnone Ha Hb Hab. rewrite lockcodestatus_unfold. cbv zeta. fold i.
  rewrite decide_False; [|by rewrite elem_of_list_to_set].
  rewrite (disagreeing_set _ a b) by done.
  rewrite decide_True by done. rewrite repr_set_disagree.
  unfold log, emit, modify, DISAGREE. cbv beta.
  by destruct touched_frame as (_&_&_&_&_&->&_).
Qed.

Lemma lockcodestatus_unregistered :
  observed w i = [] →
  lockcodestatus value w =
  (Ok (), set_trace (trace w ++ [DISAGREE i "set()"]) (touched i w)).
Proof.
  intros Hnil. rewrite lockcodestatus_unfold. cbv zeta. fold i. rewrite Hnil.
  change (list_to_set []) with (∅ : gset (option bool)).
  rewrite decide_False by set_solver. rewrite decide_True by done.
  rewrite repr_set_empty.
  unfold log, emit, modify, DISAGREE. cbv beta.
  by destruct touched_frame as (_&_&_&_&_&->&_).
Qed.

Lemma lockcodestatus_unanimous (b : bool) :
  observed w i ≠ [] → (∀ x, x ∈ observed w i → x = Some b) →
  lockcodestatus value w =
  (Ok (),
   if b then
     if decide (is_Some (names w !! i))
     then stored (set_names (delete i (names w)) (touched i w))
     else touched i w
   else
     if decide (names w !! i = None)
     then stored (set_names (<[i := PLACEHOLDER i]> (names w)) (touched i w))
     else touched i w).
Proof.
  intros Hne Hall. rewrite lockcodestatus_unfold. cbv zeta. fold i.
  rewrite (unanimous_set _ (Some b)) by done.
  rewrite decide_False by set_solver.
  rewrite decide_False by (rewrite size_singleton; auto).
  destruct (observed w i) as [|first l] eqn:E; [done|].
  assert (first = Some b) as -> by (apply Hall; left).
  destruct touched_frame as (_&_&Hn&_).
  unfold mbind, M_bind, modify. rewrite !store_name_info_run.
  cbn [truthy]. destruct b; case_decide; try done; unfold stored; simpl; by rewrite Hn.
Qed.
End reconciler.

(** ** The activity dispatcher *)

Lemma lockactivity_run nodeid atype aval w :
  lockactivity nodeid atype aval w =
  (Ok (), set_trace (trace w ++ Activity nodeid atype aval :: dispatched nodeid atype aval) w).
Proof.
  unfold lockactivity, dispatched, log, emit, modify, mbind, M_bind, set_trace.
  repeat case_bool_decide; simpl; by rewrite <- !app_assoc.
Qed.

(** C6: the dispatcher's outward actions are fixed by the alarm type: for
    type 16 exactly one logbook entry and nothing else, for type 96 exactly one
    persistent notification titled "Potential Prowler" and one warning, for
    every other type (another number, a string, nothing) one warning and no
    notification; no table and no file is touched. *)
Theorem lockactivity_by_type (nodeid : Z) (atype aval : option pydata) (w : World) :
  ∃ out, lockactivity nodeid atype aval w
         = (Ok (), set_trace (trace w ++ Activity nodeid atype aval :: out) w)
  ∧ (atype = Some (DInt 16) →
       out = [LogbookEntry "LockNameHere" (ENTERED nodeid aval)])
  ∧ (atype = Some (DInt 96) →
       out = [Notification (PROWLER nodeid) "Potential Prowler";
              Log WARNING (PROWLER nodeid)])
  ∧ (atype ≠ Some (DInt 16) → atype ≠ Some (DInt 96) →
       out = [Log WARNING (UNKNOWN_TYPE nodeid atype aval)]).
Proof.
  exists (dispatched nodeid atype aval). split; [apply lockactivity_run|].
  unfold dispatched, USER_CODE_ENTERED, TOO_MANY_FAILED_ATTEMPTS.
  repeat split; intros; repeat case_bool_decide; congruence.
Qed.

(** ** Value-changed notifications *)

Lemma getitem_nat {A} (l : list A) (n : nat) (w : World) :
  getitem l (Z.of_nat n) w =
  match l !! n with
  | Some x => (Ok x, w)
  | None => (Raise (IndexError "list index out of range"), w)
  end.
Proof.
  unfold getitem, py_index.
  destruct (l !! n) as [x|] eqn:E.
  - apply lookup_lt_Some in E as Hlt.
    rewrite decide_True by lia. simpl. by rewrite Nat2Z.id, E.
  - apply lookup_ge_None in E as Hge.
    rewrite decide_False by lia. rewrite decide_False by lia. done.
Qed.

Lemma valuechanged_user_code value w :
  command_class (heap w value) = zconst.COMMAND_CLASS_USER_CODE →
  valuechanged value w =
  match status_byte value w with
  | Some byte => lockcodestatus value (refreshed value byte w)
  | None => (Raise (IndexError "list index out of range"), w)
  end.
Proof.
  intros Hcc. unfold valuechanged, status_byte, getattr, gets.
  unfold mbind at 1, M_bind at 1. cbv beta iota.
  rewrite decide_True by done.
  unfold mbind at 1, M_bind at 1. cbv beta iota.
  unfold mbind at 1, M_bind at 1.
  change USER_CODE_STATUS_BYTE with (Z.of_nat 8). rewrite getitem_nat, Nat2Z.id.
  destruct (_ !! 8%nat) as [byte|]; [|done].
  unfold setattr, log, emit, modify, mbind, M_bind. done.
Qed.

Lemma alter_available_fields a value (h : positive → ZWaveValue) v :
  index (alter (with_available a) value h v) = index (h v)
  ∧ command_class (alter (with_available a) value h v) = command_class (h v)
  ∧ parent_id (alter (with_available a) value h v) = parent_id (h v)
  ∧ home_id (alter (with_available a) value h v) = home_id (h v)
  ∧ data (alter (with_available a) value h v) = data (h v).
Proof. unfold alter, fn_alter. by case_decide; subst. Qed.

Lemma refreshed_index value byte w v :
  index (heap (refreshed value byte w) v) = index (heap w v).
Proof. apply alter_available_fields. Qed.

(** What the reconciler leaves alone. *)
Lemma lockcodestatus_frame value w :
  let w' := (lockcodestatus value w).2 in
  heap w' = heap w ∧ alarms w' = alarms w ∧ network w' = network w
  ∧ ∀ j, registered w' j = registered w j.
Proof.
  assert (∀ i, ∀ j, registered (touched i w) j = registered w j) as Hreg.
  { intros i j. unfold touched, values_getitem, registered.
    destruct (values w !! i) eqn:E; [done|]. simpl.
    destruct (decide (i = j)) as [->|]; [by rewrite lookup_insert_eq, E|].
    by rewrite lookup_insert_ne. }
  rewrite lockcodestatus_unfold. cbv zeta.
  set (i := index (heap w value)).
  destruct (touched_frame value w) as (Hh & Ha & _ & _ & Hn & _). fold i in Hh, Ha, Hn.
  unfold log, emit, modify, mbind, M_bind. rewrite !store_name_info_run.
  repeat case_decide; try (destruct (observed w i) as [|[[]|] ?]);
    repeat case_decide; simpl; repeat split; auto; intros j; by rewrite <- (Hreg i j).
Qed.

Lemma observed_after_reconcile value w j :
  observed (lockcodestatus value w).2 j = observed w j.
Proof.
  destruct (lockcodestatus_frame value w) as (Hh & _ & _ & Hreg).
  unfold observed. by rewrite Hh, Hreg.
Qed.

(** C1: when a refresh of a user-code value has been processed and every one
    of the (at least two) observations registered for its slot then reports
    the same known availability, the slot has a name entry exactly when that
    availability is "occupied". *)
Theorem name_entry_iff_occupied (value : positive) (w w' : World) (b : bool) :
  command_class (heap w value) = zconst.COMMAND_CLASS_USER_CODE →
  valuechanged value w = (Ok (), w') →
  (2 ≤ length (registered w' (index (heap w value))))%nat →
  Forall (λ a, a = Some b) (observed w' (index (heap w value))) →
  is_Some (names w' !! index (heap w value)) ↔ Some b = OCCUPIED.
Proof.
  intros Hcc Hrun Hlen Hall. rewrite valuechanged_user_code in Hrun by done.
  destruct (status_byte value w) as [byte|]; [|done].
  set (wr := refreshed value byte w) in *.
  set (i := index (heap w value)) in *.
  assert (index (heap wr value) = i) as Hi by apply refreshed_index.
  assert (w' = (lockcodestatus value wr).2) as -> by (by rewrite Hrun).
  rewrite observed_after_reconcile in Hall.
  destruct (lockcodestatus_frame value wr) as (_ & _ & _ & Hreg).
  rewrite Hreg in Hlen. clear Hreg.
  rewrite (lockcodestatus_unanimous value wr b); rewrite ?Hi.
  - destruct (touched_frame value wr) as (_&_&Hn&_). rewrite Hi in Hn.
    destruct b; case_decide as Hd; unfold stored; simpl; rewrite ?Hn.
    + rewrite lookup_delete_eq. split; [by intros [? ?]|done].
    + split; [by intros ?|done].
    + rewrite lookup_insert_eq. split; [done|by eexists].
    + split; [done|]. intros _. by destruct (names wr !! i); [eexists|].
  - unfold observed. destruct (registered wr i); [simpl in Hlen; lia|done].
  - intros x Hx. by eapply Forall_forall in Hall.
Qed.

(** ** The alarm reassembler *)

Lemma valuechanged_alarm value w :
  command_class (heap w value) = zconst.COMMAND_CLASS_ALARM →
  valuechanged value w =
  let v := heap w value in
  match alarms w !! parent_id v with
  | None => (Ok (), w)
  | Some bits =>
      let w1 := set_trace (trace w ++ [PIECE v]) w in
      match py_index (length bits) (index v) with
      | None =>
          (Ok (), set_trace (trace w1 ++
             [BAD_DATA (IndexError "list assignment index out of range") v]) w1)
      | Some n =>
          let bits' := <[n := Some (data v)]> bits in
          let w2 := set_alarms (<[parent_id v := bits']> (alarms w)) w1 in
          if decide (None ∉ bits') then
            match bits' with
            | atype :: aval :: _ =>
                (Ok (), set_alarms (<[parent_id v := [None; None]]> (alarms w2))
                          (set_trace (trace w2 ++ Activity (parent_id v) atype aval
                                        :: dispatched (parent_id v) atype aval) w2))
            | _ =>
                (Ok (), set_trace (trace w2 ++
                   [BAD_DATA (IndexError "list index out of range") v]) w2)
            end
          else (Ok (), w2)
      end
  end.
Proof.
  intros Hcc. unfold valuechanged, getattr, gets.
  unfold mbind at 1, M_bind at 1. cbv beta iota zeta delta [id].
  rewrite decide_False by (rewrite Hcc; done).
  unfold mbind at 1, M_bind at 1. cbv beta iota.
  rewrite (bool_decide_eq_true_2 _ Hcc). cbn [andb].
  destruct (alarms w !! parent_id (heap w value)) as [bits|] eqn:Hbits.
  2: { rewrite bool_decide_eq_false_2; [done|]. by intros [? ?]. }
  rewrite bool_decide_eq_true_2 by eauto.
  unfold log, emit, modify. unfold mbind at 1, M_bind at 1. cbv beta iota.
  unfold try_except, alarms_getitem, alarms_setitem, setitem, modify.
  unfold mbind at 1, M_bind at 1. cbn [alarms set_trace]. rewrite Hbits.
  cbv beta iota.
  destruct (py_index (length bits) (index (heap w value))) as [n|]; [|done].
  unfold mbind at 1, M_bind at 1, mret at 1, M_ret at 1. cbv beta iota.
  unfold mbind at 1, M_bind at 1. cbv beta iota.
  case_decide as Hnone; [|done].
  set (bits' := <[n := _]> bits) in *.
  destruct bits' as [|atype [|aval rest]]; [done|done|].
  unfold mbind at 1, M_bind at 1. change 0 with (Z.of_nat 0). rewrite getitem_nat.
  cbn [lookup list_lookup]. cbv beta iota.
  unfold mbind at 1, M_bind at 1. change 1 with (Z.of_nat 1). rewrite getitem_nat.
  cbn [lookup list_lookup]. cbv beta iota.
  unfold mbind at 1, M_bind at 1. rewrite lockactivity_run. done.
Qed.

Lemma activities_app t1 t2 : activities (t1 ++ t2) = activities t1 ++ activities t2.
Proof. apply omap_app. Qed.

Lemma activities_dispatched nodeid atype aval :
  activities (dispatched nodeid atype aval) = [].
Proof. unfold dispatched. by repeat case_bool_decide. Qed.

(** C2: for a tracked device whose buffer is fully absent, delivering
    sub-field 0 and sub-field 1, in either order, enters the dispatcher exactly
    once, with the datum of the index-0 report as alarm type and the datum of
    the index-1 report as alarm value, and leaves every buffer as it was (the
    device's one fully absent again); the two orders differ only in the order
    of the two debug lines. *)
Theorem alarm_round_trip (d : Z) (v0 v1 : positive) (w : World) :
  alarms w !! d = Some [None; None] →
  command_class (heap w v0) = zconst.COMMAND_CLASS_ALARM →
  parent_id (heap w v0) = d → index (heap w v0) = 0 →
  command_class (heap w v1) = zconst.COMMAND_CLASS_ALARM →
  parent_id (heap w v1) = d → index (heap w v1) = 1 →
  let atype := Some (data (heap w v0)) in
  let aval := Some (data (heap w v1)) in
  let fired := Activity d atype aval :: dispatched d atype aval in
  (valuechanged v0 ;; valuechanged v1) w
  = (Ok (), set_trace (trace w ++ [PIECE (heap w v0); PIECE (heap w v1)] ++ fired) w)
  ∧ (valuechanged v1 ;; valuechanged v0) w
    = (Ok (), set_trace (trace w ++ [PIECE (heap w v1); PIECE (heap w v0)] ++ fired) w)
  ∧ activities ([PIECE (heap w v0); PIECE (heap w v1)] ++ fired) = [(d, atype, aval)]
  ∧ activities ([PIECE (heap w v1); PIECE (heap w v0)] ++ fired) = [(d, atype, aval)].
Proof.
  intros Hd Hc0 Hp0 Hi0 Hc1 Hp1 Hi1 atype aval fired.
  repeat split.
  - unfold mbind, M_bind. rewrite (valuechanged_alarm v0) by done. cbv zeta.
    rewrite Hp0, Hd, Hi0. cbn [length py_index decide]. simpl.
    rewrite (valuechanged_alarm v1) by done. cbv zeta. simpl.
    rewrite Hp1, lookup_insert_eq, Hi1. simpl.
    rewrite !insert_insert_eq, insert_id by done.
    unfold set_alarms, set_trace, fired. destruct w; simpl. by rewrite <- !app_assoc.
  - unfold mbind, M_bind. rewrite (valuechanged_alarm v1) by done. cbv zeta.
    rewrite Hp1, Hd, Hi1. simpl.
    rewrite (valuechanged_alarm v0) by done. cbv zeta. simpl.
    rewrite Hp0, lookup_insert_eq, Hi0. simpl.
    rewrite !insert_insert_eq, insert_id by done.
    unfold set_alarms, set_trace, fired. destruct w; simpl. by rewrite <- !app_assoc.
  - unfold fired. simpl. by rewrite activities_dispatched.
  - unfold fired. simpl. by rewrite activities_dispatched.
Qed.

(** ** Sequences of notifications and commands *)

Lemma quiet_refl d w : quiet d w w.
Proof. exists []. split; [by rewrite app_nil_r|]. intros a b H. by apply elem_of_nil in H. Qed.

Lemma quiet_trans d w1 w2 w3 : quiet d w1 w2 → quiet d w2 w3 → quiet d w1 w3.
Proof.
  intros (t1 & H1 & Hq1) (t2 & H2 & Hq2). exists (t1 ++ t2). split.
  - by rewrite H2, H1, app_assoc.
  - intros a b. rewrite activities_app, elem_of_app. intros [?|?]; naive_solver.
Qed.

Lemma quiet_plain d w w' t :
  trace w' = trace w ++ t → activities t = [] → quiet d w w'.
Proof.
  intros Ht Ha. exists t. split; [done|]. rewrite Ha. intros a b H.
  by apply elem_of_nil in H.
Qed.

Lemma same_identity_heap w w' : heap w' = heap w → same_identity w w'.
Proof. intros H v. by rewrite H. Qed.

Lemma same_identity_available a value w w' :
  heap w' = alter (with_available a) value (heap w) → same_identity w w'.
Proof.
  intros H v. rewrite H.
  by destruct (alter_available_fields a value (heap w) v) as (?&?&?&_).
Qed.

Lemma same_identity_trans w1 w2 w3 :
  same_identity w1 w2 → same_identity w2 w3 → same_identity w1 w3.
Proof.
  intros H1 H2 v. destruct (H1 v) as (?&?&?), (H2 v) as (?&?&?). repeat split; congruence.
Qed.

Lemma lockcodestatus_trace value w :
  ∃ t, trace (lockcodestatus value w).2 = trace w ++ t ∧ activities t = [].
Proof.
  rewrite lockcodestatus_unfold. cbv zeta.
  set (i := index (heap w value)).
  destruct (touched_frame value w) as (_ & _ & _ & _ & _ & Ht & _). fold i in Ht.
  unfold log, emit, modify, mbind, M_bind. rewrite !store_name_info_run.
  repeat case_decide; try (destruct (observed w i) as [|[[]|] ?]);
    repeat case_decide; simpl; rewrite Ht;
    try (by exists []; rewrite app_nil_r); by eexists.
Qed.

Lemma store_attr_frame (upd : ZWaveValue → ZWaveValue) (vs : list positive) (w : World) :
  (∀ v, index (upd v) = index v ∧ command_class (upd v) = command_class v
        ∧ parent_id (upd v) = parent_id v) →
  let w' := (for_each vs (λ v, setattr v upd) w).2 in
  (for_each vs (λ v, setattr v upd) w).1 = Ok ()
  ∧ alarms w' = alarms w ∧ trace w' = trace w ∧ names w' = names w
  ∧ file w' = file w ∧ values w' = values w ∧ same_identity w w'.
Proof.
  intros Hupd. revert w. induction vs as [|v vs IH]; intros w.
  - simpl. split_and!; done.
  - cbn [for_each]. unfold mbind, M_bind.
    change (setattr v upd w) with (Ok (), set_heap (alter upd v (heap w)) w).
    cbv beta iota zeta. set (w1 := set_heap _ w).
    destruct (IH w1) as (Hok & Ha & Ht & Hn & Hf & Hv & Hid).
    split_and!; try done.
    apply (same_identity_trans w w1); [|done].
    intros u. unfold w1. simpl. unfold alter, fn_alter. case_decide; subst; [apply Hupd|done].
Qed.

Lemma valuechanged_other value w :
  command_class (heap w value) ≠ zconst.COMMAND_CLASS_USER_CODE →
  command_class (heap w value) ≠ zconst.COMMAND_CLASS_ALARM →
  valuechanged value w = (Ok (), w).
Proof.
  intros Hu Ha. unfold valuechanged, getattr, gets.
  unfold mbind at 1, M_bind at 1. cbv beta iota zeta delta [id].
  rewrite decide_False by done.
  unfold mbind at 1, M_bind at 1. cbv beta iota.
  by rewrite bool_decide_eq_false_2.
Qed.

Lemma valueadded_unfold node value w :
  valueadded node value w =
  let v := heap w value in
  if decide (generic node = zconst.GENERIC_TYPE_ENTRY_CONTROL
             ∧ command_class v = zconst.COMMAND_CLASS_USER_CODE
             ∧ index v ∉ NOT_USER_CODE_INDEXES) then
    (Ok (), set_alarms (<[parent_id v := [None; None]]> (alarms w))
              (set_values (<[index v := registered w (index v) ++ [value]]> (values w))
                 (set_heap (alter (with_available None) value (heap w))
                    (set_trace (trace w ++ [REGISTERED v]) w))))
  else (Ok (), w).
Proof.
  unfold valueadded, getattr, gets.
  unfold mbind at 1, M_bind at 1. cbv beta iota zeta delta [id].
  case_decide as Hq; [|done].
  unfold log, emit, modify, setattr, alarms_setitem, modify.
  unfold mbind at 1, M_bind at 1. cbv beta iota.
  unfold mbind at 1, M_bind at 1. cbv beta iota.
  unfold mbind at 1, M_bind at 1.
  unfold values_getitem, registered. cbn [values set_heap set_trace].
  destruct (values w !! index (heap w value)) eqn:E; unfold mbind, M_bind; simpl;
    unfold set_alarms, set_values; simpl; [done|].
  by rewrite insert_insert_eq.
Qed.

Lemma valueadded_reserved node value w :
  index (heap w value) ∈ NOT_USER_CODE_INDEXES →
  valueadded node value w = (Ok (), w).
Proof.
  intros Hin. rewrite valueadded_unfold. cbv zeta.
  rewrite decide_False; [done|]. by intros (_ & _ & Hnot).
Qed.

Section steps.
Variable d : Z.
Variable i : Z.
Hypothesis Hi : i = 0 ∨ i = 1.

Lemma setcode_step index name value w :
  let w' := (setcode index name value w).2 in
  alarms w' = alarms w ∧ same_identity w w' ∧ quiet d w w'.
Proof.
  unfold setcode. case_match.
  - unfold log, emit, modify. simpl. split_and!; [done|by apply same_identity_heap|].
    by eapply quiet_plain.
  - unfold mbind, M_bind.
    pose proof (values_getitem_result index w) as Hr.
    pose proof (values_getitem_frame index w) as (Hh & Ha & _ & _ & _ & Ht & _).
    unfold touched in *. destruct (values_getitem index w) as [r w1].
    simpl in Hr, Hh, Ha, Ht. subst r.
    destruct (store_attr_frame (with_data (DStr value)) (registered w index) w1)
      as (_ & Ha' & Ht' & _ & _ & _ & Hid); [done|].
    cbv zeta. split_and!.
    + congruence.
    + intros v. destruct (Hid v) as (?&?&?). rewrite Hh in *. done.
    + apply (quiet_plain _ _ _ []); [|done]. rewrite app_nil_r. congruence.
Qed.

Lemma clearcode_step index w :
  let w' := (clearcode index w).2 in
  alarms w' = alarms w ∧ same_identity w w' ∧ quiet d w w'.
Proof.
  unfold clearcode, mbind, M_bind.
  pose proof (values_getitem_result index w) as Hr.
  pose proof (values_getitem_frame index w) as (Hh & Ha & _ & _ & _ & Ht & _).
  unfold touched in *. destruct (values_getitem index w) as [r w1].
  simpl in Hr, Hh, Ha, Ht. subst r.
  destruct (store_attr_frame (with_data (DStr CLEAR_CODE)) (registered w index) w1)
    as (_ & Ha' & Ht' & _ & _ & _ & Hid); [done|].
  cbv zeta. split_and!.
  - congruence.
  - intros v. destruct (Hid v) as (?&?&?). rewrite Hh in *. done.
  - apply (quiet_plain _ _ _ []); [|done]. rewrite app_nil_r. congruence.
Qed.

Lemma valueadded_step node value w :
  half_open d i w →
  let w' := (valueadded node value w).2 in
  half_open d i w' ∧ same_identity w w' ∧ quiet d w w'.
Proof.
  intros Hopen. rewrite valueadded_unfold. cbv zeta.
  case_decide as Hq.
  2: { split_and!; [done|by apply same_identity_heap|apply quiet_refl]. }
  simpl. split_and!.
  - intros bits. simpl.
    destruct (decide (parent_id (heap w value) = d)) as [->|Hne].
    + rewrite lookup_insert_eq. intros [= <-]. split; [done|].
      by destruct Hi as [-> | ->].
    + rewrite lookup_insert_ne by done. apply Hopen.
  - by eapply same_identity_available.
  - by eapply quiet_plain.
Qed.

Lemma valuechanged_step value w :
  half_open d i w →
  (command_class (heap w value) = zconst.COMMAND_CLASS_ALARM →
   parent_id (heap w value) = d → index (heap w value) = i) →
  let w' := (valuechanged value w).2 in
  half_open d i w' ∧ same_identity w w' ∧ quiet d w w'.
Proof.
  intros Hopen Hone.
  destruct (decide (command_class (heap w value) = zconst.COMMAND_CLASS_USER_CODE)) as [Hu|Hu].
  { rewrite valuechanged_user_code by done.
    destruct (status_byte value w) as [byte|].
    2: { split_and!; [done|by apply same_identity_heap|apply quiet_refl]. }
    destruct (lockcodestatus_frame value (refreshed value byte w)) as (Hh & Ha & _ & _).
    destruct (lockcodestatus_trace value (refreshed value byte w)) as (t & Ht & Hact).
    cbv zeta. split_and!.
    - intros bits. rewrite Ha. apply Hopen.
    - eapply same_identity_available. rewrite Hh. reflexivity.
    - exists ([REFRESH (heap w value) (bool_decide (byte = 0))] ++ t). split.
      + rewrite Ht. simpl. by rewrite <- app_assoc.
      + rewrite activities_app, Hact. simpl. intros a b H. by apply elem_of_nil in H. }
  destruct (decide (command_class (heap w value) = zconst.COMMAND_CLASS_ALARM)) as [Hc|Hc].
  2: { rewrite valuechanged_other by done.
       split_and!; [done|by apply same_identity_heap|apply quiet_refl]. }
  specialize (Hone Hc). rewrite valuechanged_alarm by done. cbv zeta.
  set (v := heap w value) in *.
  destruct (alarms w !! parent_id v) as [bits|] eqn:Hbits.
  2: { split_and!; [done|by apply same_identity_heap|apply quiet_refl]. }
  destruct (decide (parent_id v = d)) as [Hp|Hp].
  - specialize (Hone Hp). rewrite Hp in *. destruct (Hopen bits Hbits) as (Hlen & Hnone).
    rewrite Hlen, Hone.
    assert (py_index 2 i = Some (Z.to_nat i)) as -> by (by destruct Hi as [-> | ->]).
    assert (<[Z.to_nat i := Some (data v)]> bits !! Z.to_nat (1 - i) = Some None) as Hstill.
    { rewrite list_lookup_insert_ne; [done|]. destruct Hi as [-> | ->]; simpl; lia. }
    rewrite decide_False.
    2: { intros Hn. apply Hn. eapply list_elem_of_lookup_2, Hstill. }
    simpl. split_and!.
    + intros bits'. simpl. rewrite lookup_insert_eq. intros [= <-].
      by rewrite length_insert.
    + by apply same_identity_heap.
    + by eapply quiet_plain.
  - destruct (py_index (length bits) (index v)) as [n|].
    2: { simpl. split_and!; [done|by apply same_identity_heap|].
         eapply quiet_plain; [by rewrite <- app_assoc|done]. }
    case_decide.
    2: { simpl. split_and!; [|by apply same_identity_heap|by eapply quiet_plain].
         intros b. simpl. rewrite lookup_insert_ne by done. apply Hopen. }
    destruct (<[n := Some (data v)]> bits) as [|atype [|aval rest]]; simpl.
    + split_and!; [|by apply same_identity_heap|eapply quiet_plain; [by rewrite <- app_assoc|done]].
      intros b. simpl. rewrite lookup_insert_ne by done. apply Hopen.
    + split_and!; [|by apply same_identity_heap|eapply quiet_plain; [by rewrite <- app_assoc|done]].
      intros b. simpl. rewrite lookup_insert_ne by done. apply Hopen.
    + split_and!; [|by apply same_identity_heap|].
      * intros b. simpl. rewrite !lookup_insert_ne by done. apply Hopen.
      * eexists. split; [by rewrite <- app_assoc|].
        intros a b. simpl. rewrite activities_dispatched.
        intros Hin. apply list_elem_of_singleton in Hin. congruence.
Qed.
End steps.

Lemma elem_of_activities n a b t : (n, a, b) ∈ activities t ↔ Activity n a b ∈ t.
Proof.
  unfold activities. rewrite list_elem_of_omap. split.
  - intros (e & He & Heq). destruct e; try done. by injection Heq as -> -> ->.
  - intros He. by exists (Activity n a b).
Qed.

Lemma run_quiet d i l w0 w :
  i = 0 ∨ i = 1 →
  same_identity w0 w → half_open d i w →
  (∀ value, ValueChanged value ∈ l →
     command_class (heap w0 value) = zconst.COMMAND_CLASS_ALARM →
     parent_id (heap w0 value) = d → index (heap w0 value) = i) →
  quiet d w (run l w).
Proof.
  intros Hi. revert w. induction l as [|n l IH]; intros w Hid Hopen Hone.
  { apply quiet_refl. }
  assert (half_open d i (handle n w).2 ∧ same_identity w (handle n w).2
          ∧ quiet d w (handle n w).2) as (Hopen' & Hid' & Hq).
  { destruct n as [node value|value|index name value|index]; cbn [handle].
    - by apply valueadded_step.
    - apply valuechanged_step; [done|done|].
      destruct (Hid value) as (Hx & Hc & Hp). rewrite Hx, Hc, Hp.
      apply Hone. left.
    - destruct (setcode_step d index name value w) as (Ha & ? & ?).
      split_and!; [|done|done]. intros bits. rewrite Ha. apply Hopen.
    - destruct (clearcode_step d index w) as (Ha & ? & ?).
      split_and!; [|done|done]. intros bits. rewrite Ha. apply Hopen. }
  apply (quiet_trans d w (handle n w).2); [done|].
  apply IH; [by eapply same_identity_trans|done|].
  intros value Hin. apply Hone. by right.
Qed.

(** C7: a tracked device whose buffer is fully absent and which, through any
    sequence of notifications and commands, only ever gets alarm sub-fields at
    one of the two indexes never has the dispatcher entered for it; and an
    alarm sub-field of a device that is not tracked leaves the whole world,
    every buffer included, as it was. *)
Theorem one_index_never_emits (d i : Z) (l : list notification) (w : World)
    (stray : positive) (w0 : World) :
  i = 0 ∨ i = 1 →
  alarms w !! d = Some [None; None] →
  (∀ value, ValueChanged value ∈ l →
     command_class (heap w value) = zconst.COMMAND_CLASS_ALARM →
     parent_id (heap w value) = d → index (heap w value) = i) →
  command_class (heap w0 stray) = zconst.COMMAND_CLASS_ALARM →
  alarms w0 !! parent_id (heap w0 stray) = None →
  (∃ t, trace (run l w) = trace w ++ t ∧ ∀ atype aval, Activity d atype aval ∉ t)
  ∧ valuechanged stray w0 = (Ok (), w0).
Proof.
  intros Hi Hd Hone Hc Hnone. split.
  - destruct (run_quiet d i l w w) as (t & Ht & Hq); try done.
    + intros bits. rewrite Hd. intros [= <-]. split; [done|]. by destruct Hi as [-> | ->].
    + exists t. split; [done|]. intros a b. rewrite <- elem_of_activities. apply Hq.
  - rewrite valuechanged_alarm by done. cbv zeta. by rewrite Hnone.
Qed.

(** ** Frame and idempotence of the reconciler *)

Lemma saves_app t1 t2 : saves (t1 ++ t2) = (saves t1 + saves t2)%nat.
Proof. unfold saves. by rewrite filter_app, length_app. Qed.

Lemma observed_cases (l : list (option bool)) :
  None ∈ l ∨ l = []
  ∨ (∃ b, l ≠ [] ∧ ∀ x, x ∈ l → x = Some b)
  ∨ ((None ∉ l) ∧ ∃ a b, a ∈ l ∧ b ∈ l ∧ a ≠ b).
Proof.
  destruct (decide (None ∈ l)) as [|Hnone]; [by left|right].
  destruct l as [|[b|] l]; [by left| |exfalso; apply Hnone; left]. right.
  destruct (decide (Forall (λ x, x = Some b) l)) as [Hall|Hex].
  - left. exists b. split; [done|]. intros x [->|Hx]%elem_of_cons; [done|].
    by eapply Forall_forall in Hall.
  - right. split; [done|]. apply not_Forall_Exists, Exists_exists in Hex as (y & Hy & Hne);
      [|apply _].
    exists (Some b), y. split_and!; [left|by right|congruence].
Qed.

Lemma lockcodestatus_ok value w : (lockcodestatus value w).1 = Ok ().
Proof.
  destruct (observed_cases (observed w (index (heap w value))))
    as [H|[H|[(b & Hne & Hall)|(Hnone & a & b & Ha & Hb & Hab)]]].
  - by rewrite lockcodestatus_unknown.
  - by rewrite lockcodestatus_unregistered.
  - by rewrite (lockcodestatus_unanimous value w b).
  - by rewrite (lockcodestatus_disagree value w a b).
Qed.

(** C5: while an observation registered for the slot is still unknown, or
    two of them disagree, the reconciler returns without touching the name
    table or the persistence file; it logs nothing in the first case, and when
    all are known but disagree it logs the one warning that names the slot and
    the set of the two values. *)
Theorem undetermined_slot_untouched (value : positive) (w : World) :
  UNKNOWN ∈ observed w (index (heap w value))
  ∨ (∃ a b, a ∈ observed w (index (heap w value))
            ∧ b ∈ observed w (index (heap w value)) ∧ a ≠ b) →
  ∃ w', lockcodestatus value w = (Ok (), w')
    ∧ names w' = names w ∧ file w' = file w
    ∧ (UNKNOWN ∈ observed w (index (heap w value)) → trace w' = trace w)
    ∧ (UNKNOWN ∉ observed w (index (heap w value)) →
       trace w' = trace w ++
         [Log WARNING ("Locks disagree on availability of index "
                       +:+ pretty (index (heap w value)) +:+ ". set = {False, True}")]).
Proof.
  set (i := index (heap w value)). intros Hcase.
  destruct (touched_frame value w) as (_ & _ & Hn & Hf & _ & Ht & _). fold i in Hn, Hf, Ht.
  destruct (decide (UNKNOWN ∈ observed w i)) as [Hu|Hu].
  - exists (touched i w). rewrite lockcodestatus_unknown by done. by split_and!.
  - destruct Hcase as [?|(a & b & Ha & Hb & Hab)]; [done|].
    eexists. rewrite (lockcodestatus_disagree value w a b) by done.
    split_and!; [done|done|done|done|]. by intros _.
Qed.

(** Running the reconciler for a world in which it has just run. *)
Lemma lockcodestatus_settled value w w' :
  index (heap w' value) = index (heap w value) →
  observed w' (index (heap w value)) = observed w (index (heap w value)) →
  names w' = names (lockcodestatus value w).2 →
  let w2 := (lockcodestatus value w').2 in
  names w2 = names w' ∧ file w2 = file w'
  ∧ ∃ t, trace w2 = trace w' ++ t ∧ saves t = 0%nat.
Proof.
  set (i := index (heap w value)). intros Hi Hobs Hnames.
  destruct (touched_frame value w') as (_ & _ & Hn & Hf & _ & Ht & _). rewrite Hi in Hn, Hf, Ht.
  destruct (touched_frame value w) as (_ & _ & Hn0 & _). fold i in Hn0.
  destruct (observed_cases (observed w i))
    as [H|[H|[(b & Hne & Hall)|(Hnone & a & b & Ha & Hb & Hab)]]]; cbv zeta.
  - rewrite lockcodestatus_unknown by (by rewrite Hi, Hobs). rewrite Hi. simpl.
    split_and!; [done|done|]. exists []. by rewrite app_nil_r.
  - rewrite lockcodestatus_unregistered by (by rewrite Hi, Hobs, H). rewrite Hi. simpl.
    split_and!; [done|done|]. by eexists.
  - rewrite (lockcodestatus_unanimous value w' b) by (by rewrite Hi, Hobs). rewrite Hi.
    rewrite (lockcodestatus_unanimous value w b) in Hnames by done. fold i in Hnames.
    assert (if b then names w' !! i = None else is_Some (names w' !! i)) as Hsettled.
    { rewrite Hnames. destruct b; case_decide as Hd; unfold stored; simpl; rewrite ?Hn0.
      - apply lookup_delete_eq.
      - by destruct (names w !! i); [destruct Hd; eexists|].
      - rewrite lookup_insert_eq. by eexists.
      - by destruct (names w !! i); [eexists|]. }
    destruct b.
    + rewrite decide_False by (rewrite Hsettled; by intros [? ?]). simpl.
      split_and!; [done|done|]. exists []. by rewrite app_nil_r.
    + rewrite decide_False by (intros Hd; rewrite Hd in Hsettled; by destruct Hsettled).
      simpl. split_and!; [done|done|]. exists []. by rewrite app_nil_r.
  - rewrite (lockcodestatus_disagree value w' a b) by (rewrite ?Hi, ?Hobs; done). rewrite Hi. simpl.
    split_and!; [done|done|]. by eexists.
Qed.

Lemma lockcodestatus_saves value w :
  ∃ t, trace (lockcodestatus value w).2 = trace w ++ t ∧ (saves t ≤ 1)%nat.
Proof.
  set (i := index (heap w value)).
  destruct (touched_frame value w) as (_ & _ & _ & _ & _ & Ht & _). fold i in Ht.
  destruct (observed_cases (observed w i))
    as [H|[H|[(b & Hne & Hall)|(Hnone & a & b & Ha & Hb & Hab)]]].
  - rewrite lockcodestatus_unknown by done. exists []. rewrite app_nil_r.
    split; [done|unfold saves; simpl; lia].
  - rewrite lockcodestatus_unregistered by done. simpl. eexists.
    split; [done|unfold saves; simpl; lia].
  - rewrite (lockcodestatus_unanimous value w b) by done. fold i.
    destruct b; case_decide; unfold stored; simpl; rewrite ?Ht;
      try (exists []; rewrite app_nil_r; split; [done|unfold saves; simpl; lia]);
      (eexists; split; [done|unfold saves; simpl; lia]).
  - rewrite (lockcodestatus_disagree value w a b) by done. simpl. eexists.
    split; [done|unfold saves; simpl; lia].
Qed.

Lemma alter_twice_available a value (h : positive → ZWaveValue) v :
  available (alter (with_available a) value (alter (with_available a) value h) v)
  = available (alter (with_available a) value h v).
Proof. unfold alter, fn_alter. repeat case_decide; by subst. Qed.

Lemma result_ok {A} (m : M A) (w : World) (a : A) :
  (m w).1 = Ok a → m w = (Ok a, (m w).2).
Proof. destruct (m w) as [r w']. simpl. by intros ->. Qed.

(** C8: delivering the same refresh of a user-code value a second time
    succeeds and writes nothing: the name table and the persistence file stay
    as the first delivery left them and no further rewrite of the file is
    recorded; the first delivery itself rewrote the file at most once. *)
Theorem reconcile_idempotent (value : positive) (w w1 : World) :
  command_class (heap w value) = zconst.COMMAND_CLASS_USER_CODE →
  valuechanged value w = (Ok (), w1) →
  ∃ w2, valuechanged value w1 = (Ok (), w2)
    ∧ names w2 = names w1 ∧ file w2 = file w1
    ∧ saves (trace w2) = saves (trace w1)
    ∧ (saves (trace w1) ≤ saves (trace w) + 1)%nat.
Proof.
  intros Hcc Hrun. rewrite valuechanged_user_code in Hrun by done.
  destruct (status_byte value w) as [byte|] eqn:Hbyte; [|done].
  set (wr := refreshed value byte w) in *.
  assert (w1 = (lockcodestatus value wr).2) as Hw1 by (by rewrite Hrun).
  destruct (lockcodestatus_frame value wr) as (Hh & _ & Hnet & Hreg). rewrite <- Hw1 in Hh, Hnet, Hreg.
  destruct (alter_available_fields (Some (bool_decide (byte = 0))) value (heap w) value)
    as (Hx & Hc & Hp & Hhome & _).
  assert (command_class (heap w1 value) = zconst.COMMAND_CLASS_USER_CODE) as Hcc1.
  { rewrite Hh. unfold wr, refreshed. simpl. congruence. }
  assert (status_byte value w1 = Some byte) as Hbyte1.
  { unfold status_byte in *. rewrite Hh, Hnet. unfold wr, refreshed. simpl.
    by rewrite Hhome, Hp. }
  set (wr1 := refreshed value byte w1).
  exists (lockcodestatus value wr1).2.
  rewrite valuechanged_user_code, Hbyte1 by done. fold wr1.
  assert (index (heap wr1 value) = index (heap wr value)) as Hi.
  { unfold wr1. rewrite refreshed_index. by rewrite Hh. }
  destruct (lockcodestatus_settled value wr wr1) as (Hn2 & Hf2 & t2 & Ht2 & Hs2).
  - done.
  - unfold observed. replace (registered wr1 (index (heap wr value)))
      with (registered wr (index (heap wr value))) by (by rewrite <- Hreg).
    apply list_fmap_ext. intros _ v _. unfold wr1, refreshed. simpl. rewrite Hh.
    unfold wr, refreshed. simpl. apply alter_twice_available.
  - by rewrite <- Hw1.
  - destruct (lockcodestatus_saves value wr) as (t1 & Ht1 & Hs1). rewrite <- Hw1 in Ht1.
    split_and!.
    + apply result_ok, lockcodestatus_ok.
    + by rewrite Hn2.
    + by rewrite Hf2.
    + rewrite Ht2. unfold wr1, refreshed. simpl. rewrite !saves_app, Hs2.
      unfold saves at 2. simpl. lia.
    + rewrite Ht1. unfold wr, refreshed. simpl. rewrite !saves_app.
      unfold saves at 2. simpl. lia.
Qed.

(** C10: a refresh of a user-code value whose slot has no registered
    observation is not dropped: the reconciler runs on the empty list, whose
    set of availabilities has size 0, and logs the "Locks disagree" warning for
    that slot with the empty set, while the name table and the persistence
    file stay as they were. *)
Theorem unregistered_slot_warns (value : positive) (w : World) (byte : Z) :
  command_class (heap w value) = zconst.COMMAND_CLASS_USER_CODE →
  registered w (index (heap w value)) = [] →
  status_byte value w = Some byte →
  ∃ w', valuechanged value w = (Ok (), w')
    ∧ observed w' (index (heap w value)) = []
    ∧ size (list_to_set (observed w' (index (heap w value))) : gset (option bool)) = 0%nat
    ∧ trace w' = trace w ++
        [REFRESH (heap w value) (bool_decide (byte = 0));
         Log WARNING ("Locks disagree on availability of index "
                      +:+ pretty (index (heap w value)) +:+ ". set = set()")]
    ∧ names w' = names w ∧ file w' = file w.
Proof.
  intros Hcc Hreg Hbyte. rewrite valuechanged_user_code, Hbyte by done.
  set (wr := refreshed value byte w).
  assert (index (heap wr value) = index (heap w value)) as Hi by apply refreshed_index.
  assert (observed wr (index (heap wr value)) = []) as Hobs.
  { unfold observed. rewrite Hi.
    change (registered wr (index (heap w value))) with (registered w (index (heap w value))).
    by rewrite Hreg. }
  rewrite lockcodestatus_unregistered by done.
  destruct (touched_frame value wr) as (Hh & _ & Hn & Hf & _ & _ & Hr). rewrite Hi in *.
  eexists. split; [done|].
  assert (observed (set_trace (trace wr ++ [DISAGREE (index (heap w value)) "set()"])
                      (touched (index (heap w value)) wr)) (index (heap w value)) = []) as ->.
  { unfold observed.
    replace (registered _ (index (heap w value))) with (@nil positive); [done|].
    symmetry. etransitivity; [exact Hr|exact Hreg]. }
  split_and!; try done. simpl. by rewrite <- app_assoc.
Qed.

(** ** Saving the name table *)

(** C9, as the code has it: the save truncates the file when it opens it and
    then writes in place.  Cut after [k + 1] steps the file holds the first [k]
    pieces of the new contents, whatever it held before; the complete save
    returns and leaves exactly the header followed by the dump of the current
    name table. *)
Theorem save_overwrites_in_place (w : World) (k : nat) :
  file (exec (crash_after (S k)) w) = Some (take k [Text HEADER; Dump (names w)])
  ∧ store_name_info w
    = (Ok (), set_file (Some [Text HEADER; Dump (names w)])
                (set_trace (trace w ++ STORE_EFFECTS (names w)) w))
  ∧ file (exec (crash_after 0) w) = file w.
Proof.
  split_and!; [|apply store_name_info_run|done].
  destruct k as [|[|[|[|k]]]]; reflexivity.
Qed.

(** C9 fails as stated: with a name table on file, a save cut right after
    its first step has emptied the file, which then holds neither the old nor
    the new contents. *)
Lemma save_truncates_before_writing :
  file named_house = Some [Text HEADER; Dump {[5 := "Bob"]}]
  ∧ file (exec (crash_after 1) named_house) = Some []
  ∧ file (exec store_name_info named_house)
    = Some [Text HEADER; Dump {[5 := "Bob"; 7 := "Eve"]}]
  ∧ ¬ crash_safe named_house.
Proof.
  split_and!; [reflexivity..|]. intros Hsafe. by destruct (Hsafe 1%nat).
Qed.

(** ** Setting a code *)

Lemma setcode_rejected index name value w :
  forallb (λ x, in_range 0x30 0x39 (ord x)) (chars value) = false →
  setcode index name value w = (Ok (), set_trace (trace w ++ [INVALID value]) w).
Proof. intros H. unfold setcode. by rewrite H. Qed.

Lemma setcode_accepted index name value w :
  forallb (λ x, in_range 0x30 0x39 (ord x)) (chars value) = true →
  setcode index name value w
  = for_each (registered w index) (λ v, setattr v (with_data (DStr value))) (touched index w).
Proof.
  intros H. unfold setcode. rewrite H. cbn [negb].
  unfold mbind, M_bind. pose proof (values_getitem_result index w) as Hr.
  unfold touched. destruct (values_getitem index w) as [r w1]. simpl in *. by subst.
Qed.

(** What the validation of [setcode] lets through: the characters '0' to '8'. *)
Lemma setcode_validation value :
  forallb (λ x, in_range 0x30 0x39 (ord x)) (chars value) = true
  ↔ ∀ x, x ∈ chars value → 0x30 ≤ ord x ≤ 0x38.
Proof.
  rewrite forallb_forall. unfold in_range. split; intros H x Hx.
  - apply list_elem_of_In, H, bool_decide_eq_true in Hx. lia.
  - apply bool_decide_eq_true. apply list_elem_of_In, H in Hx. lia.
Qed.

(** C3 at the payload "1239": every character is an ASCII digit, yet
    [setcode] refuses the payload, logs the warning and writes to neither
    lock, while "1238" is written to both. *)
Theorem setcode_refuses_digit_nine :
  Forall (λ x, 0x30 ≤ ord x ≤ 0x39) (chars "1239")
  ∧ setcode 5 "Bob" "1239" (two_locks (λ _, 1))
    = (Ok (), set_trace (trace (two_locks (λ _, 1)) ++
                         [Log WARNING "Invalid code provided to setcode (1239)"])
                (two_locks (λ _, 1)))
  ∧ (λ v, data (heap (exec (setcode 5 "Bob" "1238") (two_locks (λ _, 1))) v))
      <$> [1; 2]%positive
    = [DStr "1238"; DStr "1238"].
Proof.
  split_and!.
  - repeat constructor; by vm_compute.
  - by rewrite setcode_rejected.
  - reflexivity.
Qed.

(** ** The placeholder name *)

(** C4 at slot 5 of two locks that both report it occupied: the second
    report creates the entry and saves the table, but the name it stores is
    "Unamed Entry 5". *)
Theorem placeholder_name_is_misspelt :
  observed (exec (valuechanged 2) one_reported) 5 = [OCCUPIED; OCCUPIED]
  ∧ names one_reported !! 5 = None
  ∧ names (exec (valuechanged 2) one_reported) = {[5 := "Unamed Entry 5"]}
  ∧ file (exec (valuechanged 2) one_reported)
    = Some [Text HEADER; Dump {[5 := "Unamed Entry 5"]}]
  ∧ names (exec (valuechanged 2) one_reported) !! 5 ≠ Some "Unnamed Entry 5".
Proof. split_and!; [reflexivity..|]. by vm_compute. Qed.

(** ** The theorems at work in the house with two locks *)

Lemma name_entry_iff_occupied_witness :
  is_Some (names (exec (valuechanged 2) one_reported) !! index (heap one_reported 2))
  ↔ Some false = OCCUPIED.
Proof.
  apply (name_entry_iff_occupied 2 one_reported (exec (valuechanged 2) one_reported) false).
  - vm_compute. reflexivity.
  - vm_compute. reflexivity.
  - vm_compute. lia.
  - vm_compute. repeat constructor.
Defined.

Lemma alarm_round_trip_witness :
  (valuechanged 3 ;; valuechanged 4) (two_locks (λ _, 1))
  = (Ok (), set_trace
       (trace (two_locks (λ _, 1)) ++
        [PIECE (heap (two_locks (λ _, 1)) 3); PIECE (heap (two_locks (λ _, 1)) 4)] ++
        Activity 10 (Some (data (heap (two_locks (λ _, 1)) 3)))
                    (Some (data (heap (two_locks (λ _, 1)) 4)))
        :: dispatched 10 (Some (data (heap (two_locks (λ _, 1)) 3)))
                         (Some (data (heap (two_locks (λ _, 1)) 4))))
       (two_locks (λ _, 1)))
  ∧ (valuechanged 4 ;; valuechanged 3) (two_locks (λ _, 1))
  = (Ok (), set_trace
       (trace (two_locks (λ _, 1)) ++
        [PIECE (heap (two_locks (λ _, 1)) 4); PIECE (heap (two_locks (λ _, 1)) 3)] ++
        Activity 10 (Some (data (heap (two_locks (λ _, 1)) 3)))
                    (Some (data (heap (two_locks (λ _, 1)) 4)))
        :: dispatched 10 (Some (data (heap (two_locks (λ _, 1)) 3)))
                         (Some (data (heap (two_locks (λ _, 1)) 4))))
       (two_locks (λ _, 1))).
Proof.
  destruct (alarm_round_trip 10 3 4 (two_locks (λ _, 1))) as (H01 & H10 & _);
    [vm_compute; reflexivity..|].
  split; [exact H01|exact H10].
Defined.

Lemma lockactivity_by_type_witness :
  (∃ out, lockactivity 10 (Some (DInt 16)) (Some (DInt 5)) (house (λ _, 0))
          = (Ok (), set_trace (trace (house (λ _, 0))
                               ++ Activity 10 (Some (DInt 16)) (Some (DInt 5)) :: out)
                      (house (λ _, 0)))
     ∧ out = [LogbookEntry "LockNameHere" (ENTERED 10 (Some (DInt 5)))])
  ∧ (∃ out, lockactivity 10 (Some (DInt 96)) (Some (DInt 0)) (house (λ _, 0))
            = (Ok (), set_trace (trace (house (λ _, 0))
                                 ++ Activity 10 (Some (DInt 96)) (Some (DInt 0)) :: out)
                        (house (λ _, 0)))
       ∧ out = [Notification (PROWLER 10) "Potential Prowler"; Log WARNING (PROWLER 10)])
  ∧ (∃ out, lockactivity 10 (Some (DStr "x")) None (house (λ _, 0))
            = (Ok (), set_trace (trace (house (λ _, 0))
                                 ++ Activity 10 (Some (DStr "x")) None :: out)
                        (house (λ _, 0)))
       ∧ out = [Log WARNING (UNKNOWN_TYPE 10 (Some (DStr "x")) None)]).
Proof.
  split_and!.
  - destruct (lockactivity_by_type 10 (Some (DInt 16)) (Some (DInt 5)) (house (λ _, 0)))
      as (out & Hrun & Hentered & _).
    exists out. split; [exact Hrun|]. by apply Hentered.
  - destruct (lockactivity_by_type 10 (Some (DInt 96)) (Some (DInt 0)) (house (λ _, 0)))
      as (out & Hrun & _ & Hprowler & _).
    exists out. split; [exact Hrun|]. by apply Hprowler.
  - destruct (lockactivity_by_type 10 (Some (DStr "x")) None (house (λ _, 0)))
      as (out & Hrun & _ & _ & Hother).
    exists out. split; [exact Hrun|]. apply Hother; discriminate.
Defined.

Lemma undetermined_slot_untouched_witness :
  (∃ w', lockcodestatus 2 split_house = (Ok (), w')
     ∧ names w' = names split_house ∧ file w' = file split_house
     ∧ trace w' = trace split_house)
  ∧ (∃ w', lockcodestatus 2 disagreeing_house = (Ok (), w')
     ∧ names w' = names disagreeing_house ∧ file w' = file disagreeing_house
     ∧ trace w' = trace disagreeing_house ++
         [Log WARNING ("Locks disagree on availability of index "
                       +:+ pretty (index (heap disagreeing_house 2))
                       +:+ ". set = {False, True}")]).
Proof.
  split.
  - destruct (undetermined_slot_untouched 2 split_house) as (w' & Hrun & Hn & Hf & Ht & _).
    + left. vm_compute. repeat constructor.
    + exists w'. split_and!; [done..|]. apply Ht. vm_compute. repeat constructor.
  - destruct (undetermined_slot_untouched 2 disagreeing_house)
      as (w' & Hrun & Hn & Hf & _ & Ht).
    + right. exists OCCUPIED, AVAILABLE. vm_compute. split_and!; [repeat constructor..|done].
    + exists w'. split_and!; [done..|]. apply Ht. vm_compute.
      intros Hin. repeat (apply elem_of_cons in Hin as [Hin|Hin]; [discriminate|]).
      by apply elem_of_nil in Hin.
Defined.

Lemma one_index_never_emits_witness :
  (∃ t, trace (run [ValueChanged 3; ValueChanged 1; ValueAdded LOCK 6; ValueChanged 5;
                    SetUserCode 5 "Bob" "1234"; ValueChanged 3; ClearUserCode 5]
                 (two_locks (λ _, 1)))
        = trace (two_locks (λ _, 1)) ++ t
        ∧ ∀ atype aval, Activity 10 atype aval ∉ t)
  ∧ valuechanged 5 (two_locks (λ _, 1)) = (Ok (), two_locks (λ _, 1)).
Proof.
  apply (one_index_never_emits 10 0 _ (two_locks (λ _, 1)) 5 (two_locks (λ _, 1))).
  - by left.
  - vm_compute. reflexivity.
  - intros value Hin. repeat (apply elem_of_cons in Hin as [Hin|Hin]);
      try discriminate Hin; try (by apply elem_of_nil in Hin);
      injection Hin as ->; vm_compute; congruence.
  - vm_compute. reflexivity.
  - vm_compute. reflexivity.
Defined.

Lemma reconcile_idempotent_witness :
  ∃ w2, valuechanged 2 (exec (valuechanged 2) one_reported) = (Ok (), w2)
    ∧ names w2 = names (exec (valuechanged 2) one_reported)
    ∧ file w2 = file (exec (valuechanged 2) one_reported)
    ∧ saves (trace w2) = saves (trace (exec (valuechanged 2) one_reported))
    ∧ (saves (trace (exec (valuechanged 2) one_reported))
       ≤ saves (trace one_reported) + 1)%nat.
Proof.
  apply (reconcile_idempotent 2 one_reported); vm_compute; reflexivity.
Defined.

Lemma unregistered_slot_warns_witness :
  ∃ w', valuechanged 7 enrolled_house = (Ok (), w')
    ∧ observed w' (index (heap enrolled_house 7)) = []
    ∧ size (list_to_set (observed w' (index (heap enrolled_house 7)))
            : gset (option bool)) = 0%nat
    ∧ trace w' = trace enrolled_house ++
        [REFRESH (heap enrolled_house 7) (bool_decide (1 = 0));
         Log WARNING ("Locks disagree on availability of index "
                      +:+ pretty (index (heap enrolled_house 7)) +:+ ". set = set()")]
    ∧ names w' = names enrolled_house ∧ file w' = file enrolled_house.
Proof.
  apply (unregistered_slot_warns 7 enrolled_house 1); vm_compute; reflexivity.
Defined.

(** The scenario of two devices at slot 5: both report the slot available and
    no entry appears; then lock 10 reports it occupied and the warning is
    logged with the table unchanged; then lock 11 reports it occupied too and
    the placeholder entry is created and saved. *)
Example slot_5_scenario :
  let w1 := run [ValueChanged 1; ValueChanged 2] (two_locks (λ _, 0)) in
  let w2 := run [ValueChanged 1] (receive (λ node, if decide (node = 10) then 1 else 0) w1) in
  let w3 := run [ValueChanged 2] (receive (λ _, 1) w2) in
  names w1 = ∅ ∧ file w1 = None
  ∧ names w2 = ∅ ∧ file w2 = None
  ∧ last (trace w2) = Some (DISAGREE 5 "{False, True}")
  ∧ names w3 = {[5 := PLACEHOLDER 5]}
  ∧ file w3 = Some [Text HEADER; Dump {[5 := PLACEHOLDER 5]}].
Proof. vm_compute. by split_and!. Qed.

(** * Further properties *)

(** ** Commands *)

Lemma touched_registered i w j : registered (touched i w) j = registered w j.
Proof.
  unfold touched, values_getitem, registered.
  destruct (values w !! i) eqn:E; [done|]. simpl.
  destruct (decide (i = j)) as [->|]; [by rewrite lookup_insert_eq, E|].
  by rewrite lookup_insert_ne.
Qed.

Lemma store_attr_heap (upd : ZWaveValue → ZWaveValue) (vs : list positive) (w : World) v :
  (∀ x, upd (upd x) = upd x) →
  heap (for_each vs (λ v, setattr v upd) w).2 v
  = if decide (v ∈ vs) then upd (heap w v) else heap w v.
Proof.
  intros Hidem. revert w. induction vs as [|u vs IH]; intros w.
  - cbn [for_each]. rewrite decide_False; [done|]. apply not_elem_of_nil.
  - cbn [for_each]. unfold mbind, M_bind.
    change (setattr u upd w) with (Ok (), set_heap (alter upd u (heap w)) w).
    cbv beta iota. rewrite IH. simpl. unfold alter, fn_alter.
    destruct (decide (u = v)) as [->|Hne].
    + rewrite (decide_True (P := v ∈ v :: vs)) by left.
      case_decide; [by rewrite Hidem|done].
    + destruct (decide (v ∈ vs)) as [Hin|Hin].
      * by rewrite (decide_True (P := v ∈ u :: vs)) by (by right).
      * rewrite (decide_False (P := v ∈ u :: vs)); [done|].
        intros [->|?]%elem_of_cons; done.
Qed.

(** What a command that stores [d] in every observation of a slot does. *)
Lemma write_all_run (d : pydata) (index : Z) (w : World) :
  let m := (vs ← values_getitem index; for_each vs (λ v, setattr v (with_data d))) in
  (m w).1 = Ok ()
  ∧ (∀ v, v ∈ registered w index → heap (m w).2 v = with_data d (heap w v))
  ∧ (∀ v, v ∉ registered w index → heap (m w).2 v = heap w v)
  ∧ names (m w).2 = names w ∧ file (m w).2 = file w
  ∧ alarms (m w).2 = alarms w ∧ trace (m w).2 = trace w
  ∧ network (m w).2 = network w
  ∧ ∀ j, registered (m w).2 j = registered w j.
Proof.
  cbv zeta. unfold mbind, M_bind.
  pose proof (values_getitem_result index w) as Hr.
  pose proof (values_getitem_frame index w) as (Hh & Ha & Hn & Hf & Hnet & Ht & _).
  pose proof (touched_registered index w) as Hreg.
  unfold touched in *. destruct (values_getitem index w) as [r w1].
  simpl in Hr, Hh, Ha, Hn, Hf, Hnet, Ht, Hreg. subst r.
  destruct (store_attr_frame (with_data d) (registered w index) w1)
    as (Hok & Ha' & Ht' & Hn' & Hf' & Hv' & _); [done|].
  assert (network (for_each (registered w index) (λ v, setattr v (with_data d)) w1).2
          = network w1) as Hnet'.
  { clear. revert w1. induction (registered w index) as [|u vs IH]; intros w1; [done|].
    cbn [for_each]. unfold mbind, M_bind.
    change (setattr u (with_data d) w1)
      with (Ok (), set_heap (alter (with_data d) u (heap w1)) w1).
    cbv beta iota. by rewrite IH. }
  split_and!; try congruence.
  - intros v Hv. rewrite store_attr_heap by done. rewrite decide_True by done. by rewrite Hh.
  - intros v Hv. rewrite store_attr_heap by done. rewrite decide_False by done. by rewrite Hh.
  - intros j. unfold registered in *. rewrite Hv'. apply Hreg.
Qed.

(** X1: [clearcode] always succeeds, stores the four NUL characters in the
    code payload of every observation registered for the slot, and changes
    nothing else: no other object, no availability, no name entry, not the
    file, no buffer, and it logs nothing. *)
Theorem clearcode_writes_sentinel (index : Z) (w : World) :
  ∃ w', clearcode index w = (Ok (), w')
    ∧ (∀ v, v ∈ registered w index →
         heap w' v = with_data (DStr CLEAR_CODE) (heap w v))
    ∧ (∀ v, v ∉ registered w index → heap w' v = heap w v)
    ∧ names w' = names w ∧ file w' = file w
    ∧ alarms w' = alarms w ∧ trace w' = trace w
    ∧ (∀ j, registered w' j = registered w j)
    ∧ (ord <$> chars CLEAR_CODE) = [0; 0; 0; 0].
Proof.
  destruct (write_all_run (DStr CLEAR_CODE) index w)
    as (Hok & Hin & Hout & Hn & Hf & Ha & Ht & _ & Hreg).
  exists (clearcode index w).2. split_and!; try done.
  by apply result_ok.
Qed.

(** X2: a payload made of the characters '0' to '8' only (the empty payload
    included) is stored in the code payload of every observation registered
    for the slot; nothing else changes, and the [name] argument is stored
    nowhere. *)
Theorem setcode_writes_payload (index : Z) (name value : string) (w : World) :
  (∀ x, x ∈ chars value → 0x30 ≤ ord x ≤ 0x38) →
  ∃ w', setcode index name value w = (Ok (), w')
    ∧ (∀ v, v ∈ registered w index → heap w' v = with_data (DStr value) (heap w v))
    ∧ (∀ v, v ∉ registered w index → heap w' v = heap w v)
    ∧ names w' = names w ∧ file w' = file w
    ∧ alarms w' = alarms w ∧ trace w' = trace w
    ∧ (∀ j, registered w' j = registered w j).
Proof.
  intros Hdigits. apply setcode_validation in Hdigits.
  destruct (write_all_run (DStr value) index w)
    as (Hok & Hin & Hout & Hn & Hf & Ha & Ht & _ & Hreg).
  assert (setcode index name value
          = (vs ← values_getitem index; for_each vs (λ v, setattr v (with_data (DStr value)))))
    as ->.
  { unfold setcode. by rewrite Hdigits. }
  eexists. split; [by apply result_ok|]. by split_and!.
Qed.

(** X3: a payload with a character outside '0' to '8' makes [setcode] log the
    warning and do nothing else: the world is the one before, up to that one
    line. *)
Theorem setcode_rejects_cleanly (index : Z) (name value : string) (w : World) (x : ascii) :
  x ∈ chars value → ¬ (0x30 ≤ ord x ≤ 0x38) →
  setcode index name value w
  = (Ok (), set_trace (trace w ++
       [Log WARNING ("Invalid code provided to setcode (" +:+ value +:+ ")")]) w).
Proof.
  intros Hx Hbad. apply setcode_rejected.
  destruct (forallb _ (chars value)) eqn:E; [|done].
  exfalso. apply Hbad. by eapply setcode_validation.
Qed.

(** ** What each handler leaves alone *)

Lemma lockcodestatus_names value w :
  let i := index (heap w value) in
  let w' := (lockcodestatus value w).2 in
  ((names w' = names w ∧ file w' = file w) ∨ saved w')
  ∧ (∀ j, names w' !! j = names w !! j
          ∨ (j = i ∧ (names w' !! j = None
                      ∨ (names w !! j = None ∧ names w' !! j = Some (PLACEHOLDER j))))).
Proof.
  cbv zeta. set (i := index (heap w value)).
  destruct (touched_frame value w) as (_ & _ & Hn & Hf & _). fold i in Hn, Hf.
  assert (∀ t, let w' := set_trace t (touched i w) in
               ((names w' = names w ∧ file w' = file w) ∨ saved w')
               ∧ (∀ j, names w' !! j = names w !! j
                       ∨ (j = i ∧ (names w' !! j = None
                                   ∨ (names w !! j = None
                                      ∧ names w' !! j = Some (PLACEHOLDER j)))))) as Hsame.
  { intros t. cbv zeta. cbn [names file set_trace]. split; [by left|].
    intros j. left. by rewrite Hn. }
  assert (touched i w = set_trace (trace (touched i w)) (touched i w)) as Heta
    by (by destruct (touched i w)).
  destruct (observed_cases (observed w i))
    as [H|[H|[(b & Hne & Hall)|(Hnone & a & b & Ha & Hb & Hab)]]].
  - rewrite lockcodestatus_unknown by done. cbn [snd]. fold i. rewrite Heta. apply Hsame.
  - rewrite lockcodestatus_unregistered by done. cbn [snd]. apply Hsame.
  - rewrite (lockcodestatus_unanimous value w b) by done. fold i. cbn [snd].
    destruct b; case_decide as Hd.
    + unfold stored, saved. cbn [names file set_file set_trace set_names].
      split; [by right|]. intros j. destruct (decide (j = i)) as [->|Hj].
      * right. split; [done|]. left. apply lookup_delete_eq.
      * left. by rewrite lookup_delete_ne.
    + rewrite Heta. apply Hsame.
    + unfold stored, saved. cbn [names file set_file set_trace set_names].
      split; [by right|]. intros j. destruct (decide (j = i)) as [->|Hj].
      * right. split; [done|]. right. split; [done|]. apply lookup_insert_eq.
      * left. by rewrite lookup_insert_ne.
    + rewrite Heta. apply Hsame.
  - rewrite (lockcodestatus_disagree value w a b) by done. cbn [snd]. apply Hsame.
Qed.

Lemma valuechanged_alarm_frame value w :
  command_class (heap w value) = zconst.COMMAND_CLASS_ALARM →
  let w' := (valuechanged value w).2 in
  (valuechanged value w).1 = Ok ()
  ∧ heap w' = heap w ∧ values w' = values w ∧ names w' = names w
  ∧ file w' = file w ∧ network w' = network w
  ∧ (∀ d, d ≠ parent_id (heap w value) → alarms w' !! d = alarms w !! d)
  ∧ (buffers_ok w → buffers_ok w').
Proof.
  intros Hc. rewrite valuechanged_alarm by done. cbv zeta.
  set (v := heap w value).
  destruct (alarms w !! parent_id v) as [bits|] eqn:Hbits; [|by split_and!].
  destruct (py_index (length bits) (index v)) as [n|] eqn:Hn; [|by split_and!].
  assert (∀ (al : gmap Z (list (option pydata))) bits' d,
            d ≠ parent_id v → <[parent_id v := bits']> al !! d = al !! d) as Hother.
  { intros al bits' d Hd. by rewrite lookup_insert_ne. }
  assert (∀ bits' w0, alarms w0 = alarms w → buffers_ok w →
            length bits' = 2%nat → None ∈ bits' →
            buffers_ok (set_alarms (<[parent_id v := bits']> (alarms w0)) w0)) as Hok.
  { intros bits' w0 Hal Hw Hlen Hnone d b. simpl. rewrite Hal.
    destruct (decide (d = parent_id v)) as [->|Hd].
    - rewrite lookup_insert_eq. by intros [= <-].
    - rewrite lookup_insert_ne by done. apply Hw. }
  assert (length (<[n := Some (data v)]> bits) = length bits) as Hlen by apply length_insert.
  case_decide as Hfull.
  - destruct (<[n := Some (data v)]> bits) as [|atype [|aval rest]] eqn:Hb; simpl;
      (split_and!; [done..| |]); try (intros d Hd; by rewrite !lookup_insert_ne).
    + intros Hw. destruct (Hw _ _ Hbits) as (Hl & _). simpl in Hlen. lia.
    + intros Hw. destruct (Hw _ _ Hbits) as (Hl & _). simpl in Hlen. lia.
    + intros Hw d b. simpl. rewrite insert_insert_eq.
      destruct (decide (d = parent_id v)) as [->|Hd].
      * rewrite lookup_insert_eq. intros [= <-]. split; [done|left].
      * rewrite lookup_insert_ne by done. apply Hw.
  - simpl. split_and!; try done.
    + intros d Hd. by rewrite lookup_insert_ne.
    + intros Hw. apply (Hok _ (set_trace (trace w ++ [PIECE v]) w)); try done.
      rewrite Hlen. by destruct (Hw _ _ Hbits).
Qed.

(** X4: a user-code value of an entry-control node, at an index that is not
    reserved, is appended to its slot's observations with its availability
    set to unknown, and the buffer of its device is (re)set to two absent
    slots; no other object, slot, buffer, name or file is touched. *)
Theorem valueadded_registers (node : ZWaveNode) (value : positive) (w : World) :
  qualifies node (heap w value) →
  ∃ w', valueadded node value w = (Ok (), w')
    ∧ registered w' (index (heap w value)) = registered w (index (heap w value)) ++ [value]
    ∧ (∀ j, j ≠ index (heap w value) → registered w' j = registered w j)
    ∧ heap w' value = with_available UNKNOWN (heap w value)
    ∧ (∀ u, u ≠ value → heap w' u = heap w u)
    ∧ alarms w' !! parent_id (heap w value) = Some [None; None]
    ∧ (∀ d, d ≠ parent_id (heap w value) → alarms w' !! d = alarms w !! d)
    ∧ names w' = names w ∧ file w' = file w
    ∧ trace w' = trace w ++ [REGISTERED (heap w value)].
Proof.
  intros Hq. rewrite valueadded_unfold. cbv zeta. rewrite decide_True by done.
  eexists. split; [done|]. unfold registered. simpl. split_and!; try done.
  - by rewrite lookup_insert_eq.
  - intros j Hj. by rewrite lookup_insert_ne.
  - unfold alter, fn_alter. by rewrite decide_True.
  - intros u Hu. unfold alter, fn_alter. by rewrite decide_False.
  - apply lookup_insert_eq.
  - intros d Hd. by rewrite lookup_insert_ne.
Qed.

(** X5: a value of a node that is no entry control, or of another command
    class, or at one of the reserved indexes 0, 254 and 255, is dropped by
    the discovery filter: [valueadded] leaves the world exactly as it was. *)
Theorem valueadded_filters (node : ZWaveNode) (value : positive) (w : World) :
  generic node ≠ 64 ∨ command_class (heap w value) ≠ 99
  ∨ index (heap w value) ∈ [0; 254; 255] →
  valueadded node value w = (Ok (), w).
Proof.
  intros Hno. rewrite valueadded_unfold. cbv zeta.
  rewrite decide_False; [done|]. intros (Hg & Hc & Hi).
  destruct Hno as [?|[?|?]]; done.
Qed.

Lemma handle_summary n w :
  let w' := (handle n w).2 in
  ((names w' = names w ∧ file w' = file w) ∨ saved w')
  ∧ (∀ j, names w' !! j = names w !! j ∨ names w' !! j = None
          ∨ (names w !! j = None ∧ names w' !! j = Some (PLACEHOLDER j)))
  ∧ (∀ j, registered w' j = registered w j
          ∨ ∃ node value, n = ValueAdded node value
                          ∧ registered w' j = registered w j ++ [value])
  ∧ (buffers_ok w → buffers_ok w')
  ∧ network w' = network w.
Proof.
  destruct n as [node value|value|slot name value|slot]; cbn [handle]; cbv zeta.
  - rewrite valueadded_unfold. cbv zeta. case_decide as Hq.
    2: { split_and!; auto. }
    simpl. split_and!; auto.
    + intros j. unfold registered. simpl.
      destruct (decide (j = index (heap w value))) as [->|Hj].
      * right. exists node, value. by rewrite lookup_insert_eq.
      * left. by rewrite lookup_insert_ne.
    + intros Hw d b. simpl.
      destruct (decide (d = parent_id (heap w value))) as [->|Hd].
      * rewrite lookup_insert_eq. intros [= <-]. split; [done|left].
      * rewrite lookup_insert_ne by done. apply Hw.
  - destruct (decide (command_class (heap w value) = zconst.COMMAND_CLASS_USER_CODE))
      as [Hu|Hu].
    { rewrite valuechanged_user_code by done.
      destruct (status_byte value w) as [byte|]; [|split_and!; auto].
      set (wr := refreshed value byte w).
      destruct (lockcodestatus_frame value wr) as (_ & Ha & Hnet & Hreg).
      destruct (lockcodestatus_names value wr) as (Hs & Hj).
      split_and!; auto.
      - intros j. destruct (Hj j) as [?|(_ & [?|?])]; auto.
      - intros Hw d b. rewrite Ha. apply Hw. }
    destruct (decide (command_class (heap w value) = zconst.COMMAND_CLASS_ALARM)) as [Hc|Hc].
    2: { rewrite valuechanged_other by done. split_and!; auto. }
    destruct (valuechanged_alarm_frame value w Hc) as (_ & _ & Hv & Hn & Hf & Hnet & _ & Hok).
    split_and!; auto.
    + intros j. left. by rewrite Hn.
    + intros j. left. unfold registered. by rewrite Hv.
  - unfold setcode. case_match.
    + unfold log, emit, modify. simpl. split_and!; auto.
    + destruct (write_all_run (DStr value) slot w) as (_ & _ & _ & Hn & Hf & Ha & _ & Hnet & Hreg).
      split_and!; auto.
      * intros j. left. by rewrite Hn.
      * intros Hw d b. rewrite Ha. apply Hw.
  - unfold clearcode. destruct (write_all_run (DStr CLEAR_CODE) slot w)
      as (_ & _ & _ & Hn & Hf & Ha & _ & Hnet & Hreg).
    split_and!; auto.
    + intros j. left. by rewrite Hn.
    + intros Hw d b. rewrite Ha. apply Hw.
Qed.

(** ** Invariants of every sequence *)

(** X6: observations are never removed or reordered: whatever is delivered,
    the observations a slot had are still there, in front and in order, and
    without a value-added notification the lists do not change at all. *)
Theorem registry_only_grows (l : list notification) (w : World) (j : Z) :
  registered w j `prefix_of` registered (run l w) j
  ∧ ((∀ node value, ValueAdded node value ∉ l) → registered (run l w) j = registered w j).
Proof.
  revert w. induction l as [|n l IH]; intros w; [done|].
  destruct (IH (handle n w).2) as (Hpre & Hsame).
  destruct (handle_summary n w) as (_ & _ & Hreg & _).
  change (run (n :: l) w) with (run l (handle n w).2). split.
  - etrans; [|exact Hpre].
    destruct (Hreg j) as [->|(node & value & _ & ->)]; [done|]. by apply prefix_app_r.
  - intros Hnone. rewrite Hsame.
    + destruct (Hreg j) as [->|(node & value & -> & _)]; [done|].
      exfalso. apply (Hnone node value). left.
    + intros node value Hin. apply (Hnone node value). by right.
Qed.

(** X7: alarm buffers stay well formed: if every buffer has two slots and is
    not complete, this is still so after any sequence of notifications and
    commands; in particular no complete report is ever left in a buffer. *)
Theorem buffers_stay_well_formed (l : list notification) (w : World) :
  buffers_ok w → buffers_ok (run l w).
Proof.
  revert w. induction l as [|n l IH]; intros w Hw; [done|].
  apply IH. by apply handle_summary.
Qed.


(** X9: every change of the name table is saved at once: after any sequence
    either the name table and the file are both what they were, or the file
    holds exactly the header and the dump of the current name table. *)
Theorem name_changes_are_saved (l : list notification) (w : World) :
  (names (run l w) = names w ∧ file (run l w) = file w) ∨ saved (run l w).
Proof.
  revert w. induction l as [|n l IH]; intros w; [by left|].
  change (run (n :: l) w) with (run l (handle n w).2).
  destruct (handle_summary n w) as (Hstep & _).
  destruct (IH (handle n w).2) as [(Hn & Hf)|Hs]; [|by right].
  destruct Hstep as [(Hn' & Hf')|Hs].
  - left. split; congruence.
  - right. unfold saved in *. by rewrite Hf, Hn.
Qed.

(** X10: names are only ever deleted or created as placeholders: an entry
    found after any sequence is either the entry the slot had before, or the
    placeholder of the slot.  No handler stores or alters a given name. *)
Theorem names_are_kept_or_placeholders (l : list notification) (w : World) (j : Z) (s : string) :
  names (run l w) !! j = Some s →
  names w !! j = Some s ∨ s = PLACEHOLDER j.
Proof.
  revert w. induction l as [|n l IH]; intros w Hs; [by left|].
  change (run (n :: l) w) with (run l (handle n w).2) in Hs.
  destruct (IH _ Hs) as [H1|?]; [|by right].
  destruct (handle_summary n w) as (_ & Hj & _).
  destruct (Hj j) as [Heq|[Hnone|(_ & Hp)]].
  - left. congruence.
  - congruence.
  - right. congruence.
Qed.

(** X11: a refresh of a user-code value decodes the status byte (zero:
    available, anything else: occupied) into the [available] attribute of that
    one object; no other object, no observation list, no buffer and no name
    entry of another slot changes. *)
Theorem refresh_sets_one_availability (value : positive) (w : World) (byte : Z) :
  command_class (heap w value) = zconst.COMMAND_CLASS_USER_CODE →
  status_byte value w = Some byte →
  ∃ w', valuechanged value w = (Ok (), w')
    ∧ heap w' value = with_available (Some (bool_decide (byte = 0))) (heap w value)
    ∧ (∀ u, u ≠ value → heap w' u = heap w u)
    ∧ alarms w' = alarms w
    ∧ (∀ j, registered w' j = registered w j)
    ∧ (∀ j, j ≠ index (heap w value) → names w' !! j = names w !! j).
Proof.
  intros Hu Hb. rewrite valuechanged_user_code, Hb by done.
  set (wr := refreshed value byte w).
  destruct (lockcodestatus_frame value wr) as (Hh & Ha & _ & Hreg).
  destruct (lockcodestatus_names value wr) as (_ & Hj).
  eexists. split; [apply result_ok, lockcodestatus_ok|]. split_and!.
  - rewrite Hh. unfold wr, refreshed. simpl. unfold alter, fn_alter. by rewrite decide_True.
  - intros u Hne. rewrite Hh. unfold wr, refreshed. simpl. unfold alter, fn_alter.
    by rewrite decide_False.
  - by rewrite Ha.
  - intros j. by rewrite Hreg.
  - intros j Hne. destruct (Hj j) as [->|(-> & _)]; [done|].
    exfalso. apply Hne. apply refreshed_index.
Qed.

(** X12: an alarm sub-field never reaches the user-code side: whatever it
    does to the buffer of its own device, the value objects, the observation
    lists, the name table, the file and the buffers of all other devices are
    as before, and the handler returns normally. *)
Theorem alarm_traffic_frame (value : positive) (w : World) :
  command_class (heap w value) = zconst.COMMAND_CLASS_ALARM →
  ∃ w', valuechanged value w = (Ok (), w')
    ∧ heap w' = heap w ∧ values w' = values w
    ∧ names w' = names w ∧ file w' = file w
    ∧ (∀ d, d ≠ parent_id (heap w value) → alarms w' !! d = alarms w !! d).
Proof.
  intros Hc.
  destruct (valuechanged_alarm_frame value w Hc) as (Hok & Hh & Hv & Hn & Hf & _ & Ha & _).
  eexists. split; [by apply result_ok|]. by split_and!.
Qed.

(** ** The reassembler, one sub-field at a time *)

(** The buffer [[a; b]] after a sub-field with datum [x] has been stored at
    index [i]: the indexes 0 and -2 are the first slot, 1 and -1 the second. *)
Lemma alarm_step value w a b :
  command_class (heap w value) = zconst.COMMAND_CLASS_ALARM →
  alarms w !! parent_id (heap w value) = Some [a; b] →
  index (heap w value) ∈ [0; 1; -1; -2] →
  valuechanged value w =
  let v := heap w value in
  let w1 := set_trace (trace w ++ [PIECE v]) w in
  let bits := if decide (index v = 0 ∨ index v = -2)
              then [Some (data v); b] else [a; Some (data v)] in
  match bits with
  | [Some x; Some y] =>
      (Ok (), set_alarms (<[parent_id v := [None; None]]> (alarms w))
                (set_trace (trace w1 ++ Activity (parent_id v) (Some x) (Some y)
                              :: dispatched (parent_id v) (Some x) (Some y)) w1))
  | _ => (Ok (), set_alarms (<[parent_id v := bits]> (alarms w)) w1)
  end.
Proof.
  intros Hc Hbits Hi. rewrite valuechanged_alarm by done. cbv zeta. rewrite Hbits.
  set (v := heap w value) in *.
  assert (index v = 0 ∨ index v = 1 ∨ index v = -1 ∨ index v = -2) as Hcases.
  { repeat (apply elem_of_cons in Hi as [Hi|Hi]; [auto|]). by apply elem_of_nil in Hi. }
  destruct Hcases as [Hx|[Hx|[Hx|Hx]]]; rewrite Hx; simpl;
    destruct a as [a|], b as [b|]; simpl; try done;
    unfold set_alarms; simpl; by rewrite insert_insert_eq.
Qed.

(** X13: a sub-field whose index is none of 0, 1, -1, -2 is logged as bad
    data and otherwise ignored: a two-slot buffer of the device is left as it
    was, the dispatcher is not entered, and the handler returns normally. *)
Theorem sub_field_index_out_of_range (value : positive) (w : World)
    (bits : list (option pydata)) :
  command_class (heap w value) = zconst.COMMAND_CLASS_ALARM →
  alarms w !! parent_id (heap w value) = Some bits →
  length bits = 2%nat →
  index (heap w value) < -2 ∨ 1 < index (heap w value) →
  valuechanged value w
  = (Ok (), set_trace (trace w ++
       [PIECE (heap w value);
        BAD_DATA (IndexError "list assignment index out of range") (heap w value)]) w).
Proof.
  intros Hc Hbits Hlen Hi. rewrite valuechanged_alarm by done. cbv zeta.
  rewrite Hbits, Hlen. unfold py_index.
  rewrite decide_False by lia. rewrite decide_False by lia.
  unfold set_trace. simpl. by rewrite <- app_assoc.
Qed.

(** X14: the transition of the reassembler for a two-slot buffer.  A
    sub-field at index 0 or -2 replaces the first slot, one at index 1 or -1
    the second (negative indexes count from the end); if both slots are then
    present, the dispatcher is entered once with the two slots, a half that
    was waiting included, and the buffer is emptied; otherwise the buffer is
    kept with the new half and nothing else happens. *)
Theorem sub_field_transition (value : positive) (w : World) (a b : option pydata) :
  command_class (heap w value) = zconst.COMMAND_CLASS_ALARM →
  alarms w !! parent_id (heap w value) = Some [a; b] →
  index (heap w value) ∈ [0; 1; -1; -2] →
  valuechanged value w =
  let v := heap w value in
  let w1 := set_trace (trace w ++ [PIECE v]) w in
  let bits := if decide (index v = 0 ∨ index v = -2)
              then [Some (data v); b] else [a; Some (data v)] in
  match bits with
  | [Some x; Some y] =>
      (Ok (), set_alarms (<[parent_id v := [None; None]]> (alarms w))
                (set_trace (trace w1 ++ Activity (parent_id v) (Some x) (Some y)
                              :: dispatched (parent_id v) (Some x) (Some y)) w1))
  | _ => (Ok (), set_alarms (<[parent_id v := bits]> (alarms w)) w1)
  end.
Proof. apply alarm_step. Qed.

(** X15: the last report of a sub-field wins: when index 0 is reported twice
    before index 1 arrives, the dispatcher is entered once, with the second
    datum as alarm type, and the buffer ends fully absent. *)
Theorem last_sub_field_wins (d : Z) (v0 v0' v1 : positive) (w : World) :
  alarms w !! d = Some [None; None] →
  command_class (heap w v0) = zconst.COMMAND_CLASS_ALARM →
  parent_id (heap w v0) = d → index (heap w v0) = 0 →
  command_class (heap w v0') = zconst.COMMAND_CLASS_ALARM →
  parent_id (heap w v0') = d → index (heap w v0') = 0 →
  command_class (heap w v1) = zconst.COMMAND_CLASS_ALARM →
  parent_id (heap w v1) = d → index (heap w v1) = 1 →
  let w' := run [ValueChanged v0; ValueChanged v0'; ValueChanged v1] w in
  activities (trace w')
  = activities (trace w) ++ [(d, Some (data (heap w v0')), Some (data (heap w v1)))]
  ∧ alarms w' = alarms w.
Proof.
  intros Hd Hc0 Hp0 Hi0 Hc0' Hp0' Hi0' Hc1 Hp1 Hi1. cbv zeta.
  unfold run. cbn [foldl handle].
  rewrite (alarm_step v0 w None None); [|done|by rewrite Hp0|rewrite Hi0; set_solver].
  cbv zeta. rewrite Hi0, Hp0. simpl.
  rewrite (alarm_step v0' _ (Some (data (heap w v0))) None);
    [|done|simpl; by rewrite Hp0', lookup_insert_eq|simpl; rewrite Hi0'; set_solver].
  cbv zeta. simpl. rewrite Hi0', Hp0'. simpl. rewrite insert_insert_eq.
  rewrite (alarm_step v1 _ (Some (data (heap w v0'))) None);
    [|done|simpl; by rewrite Hp1, lookup_insert_eq|simpl; rewrite Hi1; set_solver].
  cbv zeta. simpl. rewrite Hi1, Hp1. simpl. split.
  - rewrite !activities_app. simpl. by rewrite activities_dispatched, !app_nil_r.
  - by rewrite insert_insert_eq, insert_id.
Qed.

(** X16: discovering another user-code value of a device throws away a half
    report that was waiting in the device's buffer: sub-field 0, then the
    registration, then sub-field 1 enter the dispatcher not once, and the
    buffer ends with the second half alone. *)
Theorem registration_drops_waiting_half (d : Z) (node : ZWaveNode)
    (v0 v1 added : positive) (w : World) :
  alarms w !! d = Some [None; None] →
  command_class (heap w v0) = zconst.COMMAND_CLASS_ALARM →
  parent_id (heap w v0) = d → index (heap w v0) = 0 →
  command_class (heap w v1) = zconst.COMMAND_CLASS_ALARM →
  parent_id (heap w v1) = d → index (heap w v1) = 1 →
  qualifies node (heap w added) → parent_id (heap w added) = d →
  let w' := run [ValueChanged v0; ValueAdded node added; ValueChanged v1] w in
  activities (trace w') = activities (trace w)
  ∧ alarms w' !! d = Some [None; Some (data (heap w v1))].
Proof.
  intros Hd Hc0 Hp0 Hi0 Hc1 Hp1 Hi1 Hq Hpa. cbv zeta.
  unfold run. cbn [foldl handle].
  rewrite (alarm_step v0 w None None); [|done|by rewrite Hp0|rewrite Hi0; set_solver].
  cbv zeta. rewrite Hi0, Hp0. simpl.
  rewrite valueadded_unfold. cbv zeta. simpl. rewrite decide_True by done. simpl.
  assert (added ≠ v1) as Hne.
  { intros ->. destruct Hq as (_ & Hcc & _). rewrite Hc1 in Hcc. done. }
  set (w2 := set_alarms _ _).
  assert (heap w2 v1 = heap w v1) as Hv1.
  { unfold w2. simpl. unfold alter, fn_alter. by rewrite decide_False. }
  rewrite (alarm_step v1 w2 None None); rewrite ?Hv1;
    [|done|unfold w2; simpl; by rewrite Hp1, Hpa, lookup_insert_eq|rewrite Hi1; set_solver].
  cbv zeta. rewrite Hi1, Hp1. simpl. split.
  - rewrite !activities_app. simpl. by rewrite !app_nil_r.
  - apply lookup_insert_eq.
Qed.

(** X17: the buffers of two devices do not mix: when the halves of a report
    of one device arrive between the halves of a report of another, the
    dispatcher is entered once for each device, each time with the two halves
    of that device, and both buffers end fully absent. *)
Theorem interleaved_devices_do_not_mix (d e : Z) (d0 d1 e0 e1 : positive) (w : World) :
  d ≠ e →
  alarms w !! d = Some [None; None] → alarms w !! e = Some [None; None] →
  command_class (heap w d0) = zconst.COMMAND_CLASS_ALARM →
  parent_id (heap w d0) = d → index (heap w d0) = 0 →
  command_class (heap w d1) = zconst.COMMAND_CLASS_ALARM →
  parent_id (heap w d1) = d → index (heap w d1) = 1 →
  command_class (heap w e0) = zconst.COMMAND_CLASS_ALARM →
  parent_id (heap w e0) = e → index (heap w e0) = 0 →
  command_class (heap w e1) = zconst.COMMAND_CLASS_ALARM →
  parent_id (heap w e1) = e → index (heap w e1) = 1 →
  let w' := run [ValueChanged d0; ValueChanged e1; ValueChanged e0; ValueChanged d1] w in
  activities (trace w')
  = activities (trace w) ++ [(e, Some (data (heap w e0)), Some (data (heap w e1)));
                             (d, Some (data (heap w d0)), Some (data (heap w d1)))]
  ∧ alarms w' = alarms w.
Proof.
  intros Hde Hd He Hcd0 Hpd0 Hid0 Hcd1 Hpd1 Hid1 Hce0 Hpe0 Hie0 Hce1 Hpe1 Hie1. cbv zeta.
  unfold run. cbn [foldl handle].
  rewrite (alarm_step d0 w None None); [|done|by rewrite Hpd0|rewrite Hid0; set_solver].
  cbv zeta. rewrite Hid0, Hpd0. simpl.
  rewrite (alarm_step e1 _ None None);
    [|done|simpl; by rewrite Hpe1, lookup_insert_ne|simpl; rewrite Hie1; set_solver].
  cbv zeta. simpl. rewrite Hie1, Hpe1. simpl.
  rewrite (alarm_step e0 _ None (Some (data (heap w e1))));
    [|done|simpl; by rewrite Hpe0, lookup_insert_eq|simpl; rewrite Hie0; set_solver].
  cbv zeta. simpl. rewrite Hie0, Hpe0. simpl.
  rewrite (alarm_step d1 _ (Some (data (heap w d0))) None);
    [|done|simpl; rewrite Hpd1; rewrite 2!lookup_insert_ne by done; by rewrite lookup_insert_eq
     |simpl; rewrite Hid1; set_solver].
  cbv zeta. simpl. rewrite Hid1, Hpd1. simpl. split.
  - rewrite !activities_app. simpl.
    by rewrite !activities_dispatched, !app_nil_r, <- !app_assoc.
  - apply map_eq. intros k.
    destruct (decide (k = d)) as [->|Hkd]; [by rewrite lookup_insert_eq, Hd|].
    rewrite lookup_insert_ne by done.
    destruct (decide (k = e)) as [->|Hke]; [by rewrite lookup_insert_eq, He|].
    by rewrite !lookup_insert_ne.
Qed.

(** ** Start-up and restart *)

Lemma load_name_info_run parse format_names w :
  load_name_info parse format_names w =
  match file w with
  | None => (Ok (), w)
  | Some content =>
      match parse content with
      | inl msg =>
          (Ok (), set_trace (trace w ++
             [Log WARNING ("error loading " +:+ PERSIST_FILE +:+ ": " +:+ msg)]) w)
      | inr ns =>
          (Ok (), set_trace (trace w ++ [Log DEBUG ("read in state: " +:+ format_names ns)])
                    (set_names ns w))
      end
  end.
Proof.
  unfold load_name_info, load_yaml, gets, mbind, M_bind.
  destruct (file w) as [content|]; [|done].
  by destruct (parse content).
Qed.

Lemma names_init parse format_names objects stats f :
  names (init parse format_names objects stats f) = recovered parse f
  ∧ file (init parse format_names objects stats f) = f.
Proof.
  unfold init, exec, recovered. rewrite load_name_info_run. simpl.
  destruct f as [content|]; [|done]. by destruct (parse content).
Qed.

Lemma run_recoverable parse l w :
  reads_back parse →
  recovered parse (file w) = names w →
  recovered parse (file (run l w)) = names (run l w).
Proof.
  intros Hparse. revert w. induction l as [|n l IH]; intros w Hw; [done|].
  change (run (n :: l) w) with (run l (handle n w).2). apply IH.
  destruct (handle_summary n w) as ([(Hn & Hf)|Hs] & _).
  - by rewrite Hf, Hn.
  - unfold saved in Hs. rewrite Hs. unfold recovered. by rewrite Hparse.
Qed.

(** X18: the name table survives a restart.  If the YAML reader gives back
    the table from what [store_name_info] writes, then after any sequence of
    notifications and commands a fresh start on the file as it then is loads
    exactly the name table the running program has. *)
Theorem restart_recovers_names
    (parse : list chunk → string + gmap Z string) (format_names : gmap Z string → string)
    (objects objects' : positive → ZWaveValue) (stats stats' : Z → Z → list Z)
    (f : option (list chunk)) (l : list notification) :
  reads_back parse →
  names (init parse format_names objects' stats'
           (file (run l (init parse format_names objects stats f))))
  = names (run l (init parse format_names objects stats f)).
Proof.
  intros Hparse.
  destruct (names_init parse format_names objects' stats'
              (file (run l (init parse format_names objects stats f)))) as (-> & _).
  apply run_recoverable; [done|].
  by destruct (names_init parse format_names objects stats f) as (-> & ->).
Qed.

(** X19: start-up never fails on the file.  The tables start empty and the
    file is left alone; a missing file gives an empty name table and no log
    line, a file the reader refuses gives an empty name table and one warning
    with the reader's message, and a file the reader accepts gives exactly the
    table read. *)
Theorem start_up_tolerates_bad_file
    (parse : list chunk → string + gmap Z string) (format_names : gmap Z string → string)
    (objects : positive → ZWaveValue) (stats : Z → Z → list Z) (f : option (list chunk)) :
  let w := init parse format_names objects stats f in
  file w = f ∧ values w = ∅ ∧ alarms w = ∅ ∧ heap w = objects
  ∧ (f = None → names w = ∅ ∧ trace w = [])
  ∧ (∀ content msg, f = Some content → parse content = inl msg →
       names w = ∅
       ∧ trace w = [Log WARNING ("error loading lockinfo.yaml: " +:+ msg)])
  ∧ (∀ content ns, f = Some content → parse content = inr ns →
       names w = ns
       ∧ trace w = [Log DEBUG ("read in state: " +:+ format_names ns)]).
Proof.
  cbv zeta. unfold init, exec. rewrite load_name_info_run. simpl.
  destruct f as [content|].
  - destruct (parse content) as [msg|ns] eqn:E; simpl; split_and!; try done.
    + intros c m [= <-] Hc. rewrite E in Hc. by injection Hc as <-.
    + intros c m [= <-] Hc. by rewrite E in Hc.
    + intros c m [= <-] Hc. by rewrite E in Hc.
    + intros c m [= <-] Hc. rewrite E in Hc. by injection Hc as <-.
  - simpl. split_and!; done.
Qed.

(** ** The further properties at work *)

Lemma clearcode_writes_sentinel_witness :
  ∃ w', clearcode 5 (two_locks (λ _, 1)) = (Ok (), w')
    ∧ heap w' 1 = with_data (DStr CLEAR_CODE) (heap (two_locks (λ _, 1)) 1)
    ∧ heap w' 2 = with_data (DStr CLEAR_CODE) (heap (two_locks (λ _, 1)) 2)
    ∧ heap w' 3 = heap (two_locks (λ _, 1)) 3.
Proof.
  destruct (clearcode_writes_sentinel 5 (two_locks (λ _, 1)))
    as (w' & Hrun & Hin & Hout & _).
  exists w'. split_and!; [exact Hrun|apply Hin|apply Hin|apply Hout].
  - vm_compute. repeat constructor.
  - vm_compute. repeat constructor.
  - vm_compute. intros Hin3.
    repeat (apply elem_of_cons in Hin3 as [Hin3|Hin3]; [discriminate|]).
    by apply elem_of_nil in Hin3.
Defined.

Lemma setcode_writes_payload_witness :
  ∃ w', setcode 5 "Bob" "0482" (two_locks (λ _, 1)) = (Ok (), w')
    ∧ heap w' 1 = with_data (DStr "0482") (heap (two_locks (λ _, 1)) 1)
    ∧ names w' = names (two_locks (λ _, 1)).
Proof.
  destruct (setcode_writes_payload 5 "Bob" "0482" (two_locks (λ _, 1)))
    as (w' & Hrun & Hin & _ & Hn & _).
  - intros x Hx. repeat (apply elem_of_cons in Hx as [->|Hx]; [by vm_compute|]).
    by apply elem_of_nil in Hx.
  - exists w'. split_and!; [exact Hrun| |exact Hn]. apply Hin.
    vm_compute. repeat constructor.
Defined.

Lemma setcode_rejects_cleanly_witness :
  setcode 5 "Bob" "12a4" (two_locks (λ _, 1))
  = (Ok (), set_trace (trace (two_locks (λ _, 1)) ++
       [Log WARNING ("Invalid code provided to setcode (" +:+ "12a4" +:+ ")")])
       (two_locks (λ _, 1))).
Proof.
  apply (setcode_rejects_cleanly 5 "Bob" "12a4" (two_locks (λ _, 1)) "a"%char).
  - vm_compute. repeat constructor.
  - vm_compute. intros [_ H]. by apply H.
Defined.

Lemma valueadded_registers_witness :
  ∃ w', valueadded LOCK 6 (two_locks (λ _, 1)) = (Ok (), w')
    ∧ registered w' (index (heap (two_locks (λ _, 1)) 6))
      = registered (two_locks (λ _, 1)) (index (heap (two_locks (λ _, 1)) 6)) ++ [6%positive]
    ∧ alarms w' !! parent_id (heap (two_locks (λ _, 1)) 6) = Some [None; None].
Proof.
  destruct (valueadded_registers LOCK 6 (two_locks (λ _, 1)))
    as (w' & Hrun & Hreg & _ & _ & _ & Hbuf & _).
  - split_and!; [reflexivity|reflexivity|].
    vm_compute. intros Hin.
    repeat (apply elem_of_cons in Hin as [Hin|Hin]; [discriminate|]).
    by apply elem_of_nil in Hin.
  - exists w'. by split_and!.
Defined.

Lemma valueadded_filters_witness :
  valueadded LOCK 7 (two_locks (λ _, 1)) = (Ok (), two_locks (λ _, 1)).
Proof.
  apply valueadded_filters. right. right. vm_compute. repeat constructor.
Defined.

Lemma registry_only_grows_witness :
  registered (two_locks (λ _, 1)) 5
  `prefix_of` registered (run [ValueChanged 1; ValueAdded LOCK 6; ClearUserCode 9]
                            (two_locks (λ _, 1))) 5
  ∧ registered (run [ValueChanged 1; ClearUserCode 9] (two_locks (λ _, 1))) 5
    = registered (two_locks (λ _, 1)) 5.
Proof.
  split.
  - apply (registry_only_grows [ValueChanged 1; ValueAdded LOCK 6; ClearUserCode 9]).
  - apply (registry_only_grows [ValueChanged 1; ClearUserCode 9]).
    intros node value Hin.
    repeat (apply elem_of_cons in Hin as [Hin|Hin]; [discriminate|]).
    by apply elem_of_nil in Hin.
Defined.

Lemma buffers_stay_well_formed_witness :
  buffers_ok (run [ValueAdded LOCK 1; ValueChanged 3; ValueChanged 4; ValueChanged 3]
                (house (λ _, 1))).
Proof.
  apply buffers_stay_well_formed. intros d bits Hd.
  change (alarms (house (λ _, 1))) with (∅ : gmap Z (list (option pydata))) in Hd.
  by rewrite lookup_empty in Hd.
Defined.


Lemma names_are_kept_or_placeholders_witness :
  names (two_locks (λ _, 1)) !! 5 = Some (PLACEHOLDER 5) ∨ PLACEHOLDER 5 = PLACEHOLDER 5.
Proof.
  apply (names_are_kept_or_placeholders [ValueChanged 1; ValueChanged 2]).
  vm_compute. reflexivity.
Defined.

Lemma refresh_sets_one_availability_witness :
  ∃ w', valuechanged 1 (two_locks (λ _, 1)) = (Ok (), w')
    ∧ heap w' 1 = with_available (Some (bool_decide (1 = 0))) (heap (two_locks (λ _, 1)) 1)
    ∧ heap w' 2 = heap (two_locks (λ _, 1)) 2.
Proof.
  destruct (refresh_sets_one_availability 1 (two_locks (λ _, 1)) 1)
    as (w' & Hrun & Hset & Hrest & _); [vm_compute; reflexivity..|].
  exists w'. split_and!; [exact Hrun|exact Hset|by apply Hrest].
Defined.

Lemma alarm_traffic_frame_witness :
  ∃ w', valuechanged 3 (two_locks (λ _, 1)) = (Ok (), w')
    ∧ heap w' = heap (two_locks (λ _, 1)) ∧ values w' = values (two_locks (λ _, 1))
    ∧ names w' = names (two_locks (λ _, 1)) ∧ file w' = file (two_locks (λ _, 1))
    ∧ (∀ d, d ≠ parent_id (heap (two_locks (λ _, 1)) 3) →
         alarms w' !! d = alarms (two_locks (λ _, 1)) !! d).
Proof. apply alarm_traffic_frame. vm_compute. reflexivity. Defined.

Lemma sub_field_index_out_of_range_witness :
  valuechanged 10 alarm_house
  = (Ok (), set_trace (trace alarm_house ++
       [PIECE (heap alarm_house 10);
        BAD_DATA (IndexError "list assignment index out of range") (heap alarm_house 10)])
       alarm_house).
Proof.
  apply (sub_field_index_out_of_range 10 alarm_house [None; None]);
    [vm_compute; reflexivity..|].
  right. vm_compute. reflexivity.
Defined.

Lemma sub_field_transition_witness :
  valuechanged 11 alarm_house =
  let v := heap alarm_house 11 in
  let w1 := set_trace (trace alarm_house ++ [PIECE v]) alarm_house in
  let bits := if decide (index v = 0 ∨ index v = -2)
              then [Some (data v); None] else [None; Some (data v)] in
  match bits with
  | [Some x; Some y] =>
      (Ok (), set_alarms (<[parent_id v := [None; None]]> (alarms alarm_house))
                (set_trace (trace w1 ++ Activity (parent_id v) (Some x) (Some y)
                              :: dispatched (parent_id v) (Some x) (Some y)) w1))
  | _ => (Ok (), set_alarms (<[parent_id v := bits]> (alarms alarm_house)) w1)
  end.
Proof.
  apply (sub_field_transition 11 alarm_house None None).
  - vm_compute. reflexivity.
  - vm_compute. reflexivity.
  - vm_compute. repeat constructor.
Defined.

Lemma last_sub_field_wins_witness :
  activities (trace (run [ValueChanged 3; ValueChanged 12; ValueChanged 4] alarm_house))
  = activities (trace alarm_house)
    ++ [(10, Some (data (heap alarm_house 12)), Some (data (heap alarm_house 4)))]
  ∧ alarms (run [ValueChanged 3; ValueChanged 12; ValueChanged 4] alarm_house)
    = alarms alarm_house.
Proof. apply (last_sub_field_wins 10 3 12 4 alarm_house); vm_compute; reflexivity. Defined.

Lemma registration_drops_waiting_half_witness :
  activities (trace (run [ValueChanged 3; ValueAdded LOCK 6; ValueChanged 4] alarm_house))
  = activities (trace alarm_house)
  ∧ alarms (run [ValueChanged 3; ValueAdded LOCK 6; ValueChanged 4] alarm_house) !! 10
    = Some [None; Some (data (heap alarm_house 4))].
Proof.
  apply (registration_drops_waiting_half 10 LOCK 3 4 6 alarm_house);
    try (vm_compute; reflexivity).
  split_and!; [reflexivity|reflexivity|].
  vm_compute. intros Hin.
  repeat (apply elem_of_cons in Hin as [Hin|Hin]; [discriminate|]).
  by apply elem_of_nil in Hin.
Defined.

Lemma interleaved_devices_do_not_mix_witness :
  activities (trace (run [ValueChanged 3; ValueChanged 9; ValueChanged 8; ValueChanged 4]
                       alarm_house))
  = activities (trace alarm_house)
    ++ [(11, Some (data (heap alarm_house 8)), Some (data (heap alarm_house 9)));
        (10, Some (data (heap alarm_house 3)), Some (data (heap alarm_house 4)))]
  ∧ alarms (run [ValueChanged 3; ValueChanged 9; ValueChanged 8; ValueChanged 4] alarm_house)
    = alarms alarm_house.
Proof.
  apply (interleaved_devices_do_not_mix 10 11 3 4 8 9 alarm_house);
    try (vm_compute; reflexivity). discriminate.
Defined.

Lemma restart_recovers_names_witness :
  names (init parse_pieces (λ _, "{}") house_heap (λ _ _, status_message 0)
           (file (run [ValueAdded LOCK 1; ValueAdded LOCK 2; ValueChanged 1; ValueChanged 2]
                    (init parse_pieces (λ _, "{}") house_heap
                       (λ _ _, status_message 1) None))))
  = names (run [ValueAdded LOCK 1; ValueAdded LOCK 2; ValueChanged 1; ValueChanged 2]
             (init parse_pieces (λ _, "{}") house_heap (λ _ _, status_message 1) None)).
Proof. apply restart_recovers_names. intros ns. reflexivity. Defined.

Lemma start_up_tolerates_bad_file_witness :
  names (init parse_pieces (λ _, "{}") house_heap (λ _ _, []) (Some [Text "oops"])) = ∅
  ∧ trace (init parse_pieces (λ _, "{}") house_heap (λ _ _, []) (Some [Text "oops"]))
    = [Log WARNING ("error loading lockinfo.yaml: " +:+ "could not parse")].
Proof.
  destruct (start_up_tolerates_bad_file parse_pieces (λ _, "{}") house_heap (λ _ _, [])
              (Some [Text "oops"])) as (_ & _ & _ & _ & _ & Hbad & _).
  apply (Hbad [Text "oops"]); reflexivity.
Defined.
